(** * Courier: the Python call handler and the Router binding

    A shallow embedding of [courier/handlers/py_call.cc] and
    [courier/python/router.cc].

    - [absl::StatusCode], [absl::Status] and [absl::StatusOr] are an
      enumeration, a record and a two-constructor sum.
    - The CPython error indicator is [option PyTypeObject]: the class of the
      pending exception, a class being known by its method resolution order.
    - Code that touches the interpreter is written in a state monad over a
      [World]: the calling thread's hold on the GIL, the interpreter state,
      and the chronological log of the operations performed, each stamped
      with the GIL flag at the moment it ran. *)

From stdpp Require Import base option list strings gmap fin_maps.
From stdpp Require Import pretty.

(** ** absl::Status *)

Inductive StatusCode :=
  | kOk | kCancelled | kUnknown | kInvalidArgument | kDeadlineExceeded
  | kNotFound | kAlreadyExists | kPermissionDenied | kResourceExhausted
  | kFailedPrecondition | kAborted | kOutOfRange | kUnimplemented
  | kInternal | kUnavailable | kDataLoss | kUnauthenticated.

#[global] Instance StatusCode_eq_dec : EqDecision StatusCode.
Proof. solve_decision. Defined.

Record Status := mkStatus { code : StatusCode; message : string }.

#[global] Instance Status_eq_dec : EqDecision Status.
Proof. solve_decision. Defined.

Definition OkStatus : Status := mkStatus kOk "".
Definition InternalError (msg : string) : Status := mkStatus kInternal msg.
Definition ok (s : Status) : bool := bool_decide (code s = kOk).

(** [absl::StatusOr<T>]: a value or a status. *)
Inductive StatusOr (T : Type) :=
  | Value (v : T)
  | Error (s : Status).
Arguments Value {T} v.
Arguments Error {T} s.

Definition is_value {T} (r : StatusOr T) : bool :=
  match r with Value _ => true | Error _ => false end.
Definition is_error {T} (r : StatusOr T) : bool :=
  match r with Value _ => false | Error _ => true end.

(** ** The CPython error indicator *)

(** The exception classes [PythonExceptionErrorCode] names, a few of their
    relatives in the builtin hierarchy, and any other class. *)
Inductive PyExcClass :=
  | PyExc_BaseException | PyExc_Exception
  | PyExc_ValueError | PyExc_UnicodeError | PyExc_TypeError
  | PyExc_StopIteration | PyExc_MemoryError
  | PyExc_RuntimeError | PyExc_NotImplementedError
  | PyExc_KeyboardInterrupt
  | PyExc_SystemError | PyExc_SyntaxError | PyExc_IndentationError
  | PyExc_LookupError | PyExc_KeyError | PyExc_IndexError
  | PyExc_AttributeError
  | PyExc_Other (name : string).

#[global] Instance PyExcClass_eq_dec : EqDecision PyExcClass.
Proof. solve_decision. Defined.

(** A class object, known by its method resolution order: the class itself
    followed by every class it inherits from. *)
Record PyTypeObject := mkType { tp_mro : list PyExcClass }.

(** [PyErr_Occurred()]: the class of the pending exception, or NULL. *)
Definition ErrorIndicator := option PyTypeObject.

(** [PyType_IsSubtype(t, exc)] walks [t]'s method resolution order. *)
Definition PyType_IsSubtype (t : PyTypeObject) (exc : PyExcClass) : bool :=
  bool_decide (exc ∈ tp_mro t).

(** [PyErr_ExceptionMatches(exc)] is
    [PyErr_GivenExceptionMatches(PyErr_Occurred(), exc)]. *)
Definition PyErr_ExceptionMatches (pending : ErrorIndicator) (exc : PyExcClass)
  : bool :=
  match pending with
  | None => false
  | Some t => PyType_IsSubtype t exc
  end.

(** ** PythonExceptionErrorCode (py_call.cc, lines 39-67) *)

Definition PythonExceptionErrorCode (pending : ErrorIndicator) : StatusCode :=
  if negb (bool_decide (is_Some pending)) then kUnknown
  else if PyErr_ExceptionMatches pending PyExc_ValueError
          || PyErr_ExceptionMatches pending PyExc_TypeError
       then kInvalidArgument
  else if PyErr_ExceptionMatches pending PyExc_StopIteration
       then kOutOfRange
  else if PyErr_ExceptionMatches pending PyExc_MemoryError
       then kResourceExhausted
  else if PyErr_ExceptionMatches pending PyExc_NotImplementedError
       then kUnimplemented
  else if PyErr_ExceptionMatches pending PyExc_KeyboardInterrupt
       then kAborted
  else if PyErr_ExceptionMatches pending PyExc_SystemError
          || PyErr_ExceptionMatches pending PyExc_SyntaxError
       then kInternal
  else if PyErr_ExceptionMatches pending PyExc_LookupError
       then kNotFound
  else kUnknown.

(** ** The error mapper as the specification words it

    Section 4.4: an ordered table of (category, status code), read top to
    bottom, the first matching row deciding, with [Unknown] as the default
    and for the absence of a pending failure. A category is a set of
    exception classes, and a pending exception belongs to it when its class
    derives from one of them. *)

Inductive FailureCategory :=
  | ValueOrTypeMismatch | IterationExhausted | MemoryExhaustion
  | NotImplemented | UserInterrupt | InternalOrSyntax | LookupFailure.

(** The exception classes each category is worded as: value-shape or type
    mismatch, iteration exhausted, memory exhaustion, not implemented, user
    interrupt, internal consistency or syntax level, and lookup failure,
    which is a key or an attribute that is not found. *)
Definition category_classes (c : FailureCategory) : list PyExcClass :=
  match c with
  | ValueOrTypeMismatch => [PyExc_ValueError; PyExc_TypeError]
  | IterationExhausted => [PyExc_StopIteration]
  | MemoryExhaustion => [PyExc_MemoryError]
  | NotImplemented => [PyExc_NotImplementedError]
  | UserInterrupt => [PyExc_KeyboardInterrupt]
  | InternalOrSyntax => [PyExc_SystemError; PyExc_SyntaxError]
  | LookupFailure => [PyExc_LookupError; PyExc_AttributeError]
  end.

(** The same categories with lookup failure narrowed to [LookupError], the
    base of [KeyError] and [IndexError]: a key or an index that is not found.
    [AttributeError] is not among its subclasses. *)
Definition category_classes_amended (c : FailureCategory) : list PyExcClass :=
  match c with
  | LookupFailure => [PyExc_LookupError]
  | _ => category_classes c
  end.

Definition in_category (classes : FailureCategory → list PyExcClass)
  (t : PyTypeObject) (c : FailureCategory) : bool :=
  existsb (PyType_IsSubtype t) (classes c).

Definition error_table : list (FailureCategory * StatusCode) :=
  [ (ValueOrTypeMismatch, kInvalidArgument);
    (IterationExhausted, kOutOfRange);
    (MemoryExhaustion, kResourceExhausted);
    (NotImplemented, kUnimplemented);
    (UserInterrupt, kAborted);
    (InternalOrSyntax, kInternal);
    (LookupFailure, kNotFound) ].

Fixpoint first_match (classes : FailureCategory → list PyExcClass)
  (tbl : list (FailureCategory * StatusCode)) (t : PyTypeObject)
  : StatusCode :=
  match tbl with
  | [] => kUnknown
  | (c, sc) :: rest =>
      if in_category classes t c then sc else first_match classes rest t
  end.

Definition ErrorMapper (classes : FailureCategory → list PyExcClass)
  (pending : ErrorIndicator) : StatusCode :=
  match pending with
  | None => kUnknown
  | Some t => first_match classes error_table t
  end.

(** The error mapper of section 4.4, and the one with the lookup category
    narrowed. *)
Definition ErrorMapper_spec : ErrorIndicator → StatusCode :=
  ErrorMapper category_classes.
Definition ErrorMapper_amended : ErrorIndicator → StatusCode :=
  ErrorMapper category_classes_amended.

(** The place of a status code in the order in which
    [PythonExceptionErrorCode] tests for it; the default comes last. *)
Definition test_order (c : StatusCode) : nat :=
  match c with
  | kInvalidArgument => 0
  | kOutOfRange => 1
  | kResourceExhausted => 2
  | kUnimplemented => 3
  | kAborted => 4
  | kInternal => 5
  | kNotFound => 6
  | _ => 7
  end.

(** [derived] inherits from every class [base] inherits from. *)
Definition inherits_all (derived base : PyTypeObject) : Prop :=
  ∀ c, c ∈ tp_mro base → c ∈ tp_mro derived.

(** Some classes of the builtin hierarchy, and one user-defined class that
    inherits from two categories at once. *)
Definition KeyError_type : PyTypeObject :=
  mkType [PyExc_KeyError; PyExc_LookupError; PyExc_Exception;
          PyExc_BaseException].
Definition UnicodeError_type : PyTypeObject :=
  mkType [PyExc_UnicodeError; PyExc_ValueError; PyExc_Exception;
          PyExc_BaseException].
Definition IndentationError_type : PyTypeObject :=
  mkType [PyExc_IndentationError; PyExc_SyntaxError; PyExc_Exception;
          PyExc_BaseException].
Definition NotImplementedError_type : PyTypeObject :=
  mkType [PyExc_NotImplementedError; PyExc_RuntimeError; PyExc_Exception;
          PyExc_BaseException].
Definition RuntimeError_type : PyTypeObject :=
  mkType [PyExc_RuntimeError; PyExc_Exception; PyExc_BaseException].
Definition AttributeError_type : PyTypeObject :=
  mkType [PyExc_AttributeError; PyExc_Exception; PyExc_BaseException].
Definition KeyboardInterrupt_type : PyTypeObject :=
  mkType [PyExc_KeyboardInterrupt; PyExc_BaseException].
Definition UnicodeDecodeError_type : PyTypeObject :=
  mkType [PyExc_Other "UnicodeDecodeError"; PyExc_UnicodeError;
          PyExc_ValueError; PyExc_Exception; PyExc_BaseException].
Definition SystemError_type : PyTypeObject :=
  mkType [PyExc_SystemError; PyExc_Exception; PyExc_BaseException].
(** [class MissingField(KeyError, ValueError)] *)
Definition MissingField_type : PyTypeObject :=
  mkType [PyExc_Other "MissingField"; PyExc_KeyError; PyExc_LookupError;
          PyExc_ValueError; PyExc_Exception; PyExc_BaseException].


(** ** Wire messages

    Modelled from the spec: the message types ([serialization.pb.h] is
    generated and not among the files). Section 3: [CallArguments] is an
    ordered sequence of payloads and a mapping from string names to payloads
    with unique keys; [CallResult] holds one payload. This agrees with their
    use in [Call]: [arguments.args(i)] indexes a sequence and
    [arguments.kwargs()] is iterated as (key, value) pairs. The payload type
    itself is left abstract. *)

Record CallArguments (Payload : Type) := mkCallArguments {
  args : list Payload;
  kwargs : gmap string Payload
}.
Arguments mkCallArguments {Payload} _ _.
Arguments args {Payload} _.
Arguments kwargs {Payload} _.

Record CallResult (Payload : Type) := mkCallResult { result : Payload }.
Arguments mkCallResult {Payload} _.
Arguments result {Payload} _.

(** Modelled from the spec: a request as it arrives, its keyword entries in
    the order of receipt. Parsing stores them in the mapping, a later entry
    for a key replacing an earlier one, so that keys are unique. *)
Record WireCallArguments (Payload : Type) := mkWire {
  wire_args : list Payload;
  wire_kwargs : list (string * Payload)
}.
Arguments mkWire {Payload} _ _.
Arguments wire_args {Payload} _.
Arguments wire_kwargs {Payload} _.

Definition ParseCallArguments {Payload} (m : WireCallArguments Payload)
  : CallArguments Payload :=
  mkCallArguments (wire_args m)
    (foldl (λ acc kv, <[kv.1 := kv.2]> acc) ∅ (wire_kwargs m)).

(** The payloads of a request in the order of receipt: positional arguments,
    then keyword entries as they arrived. *)
Definition receipt_order {Payload} (m : WireCallArguments Payload)
  : list Payload :=
  wire_args m ++ (wire_kwargs m).*2.

(** ** The hosted runtime

    What [Call] uses of CPython, protobuf and the rest of courier, none of
    which is part of the files modelled here. Tensor decoding is a function
    of the request alone; everything else reads or updates the interpreter
    state. The order in which a protobuf map is iterated is whatever the
    container makes of its contents: some enumeration of the entries, each
    once. *)

Class PyRuntime (Payload : Type) := {
  TensorLookup : Type;
  PyObject : Type;
  PyState : Type;
  CreateTensorLookup : CallArguments Payload → StatusOr TensorLookup;
  DeserializePyObject :
    Payload → TensorLookup → PyState → StatusOr PyObject * PyState;
  (** fills [result.mutable_result()] and returns a status *)
  SerializePyObject : PyObject → PyState → (Status * Payload) * PyState;
  (** NULL (here [None]) when the callable raised *)
  PyObject_Call :
    PyObject → list (option PyObject) → list (string * PyObject) →
    PyState → option PyObject * PyState;
  PyErr_Occurred : PyState → ErrorIndicator;
  (** fetches and clears the pending exception; [None] when no text could
      be produced *)
  FetchPendingException : PyState → option string * PyState;
  Py_INCREF : PyObject → PyState → PyState;
  Py_DECREF : PyObject → PyState → PyState;
  (** what [PyUnicode_FromString] leaves behind when the bytes it is given
      are not UTF-8: a [UnicodeDecodeError] pending *)
  PyUnicode_FromString_fail : string → PyState → PyState;
  (** [begin()] to [end()] of a [Map<string, Payload>] *)
  Map_iteration : gmap string Payload → list (string * Payload);
  Map_iteration_perm : ∀ m, Map_iteration m ≡ₚ map_to_list m
}.

(** The order in which the range-for over [arguments.kwargs()] visits the
    entries. *)
Definition kwargs_iteration {Payload} `{!PyRuntime Payload}
  (arguments : CallArguments Payload) : list (string * Payload) :=
  Map_iteration (kwargs arguments).

(** [std::string::data()] handed to a C-string API: the characters before
    the first NUL. *)
Fixpoint c_str (s : string) : string :=
  match s with
  | EmptyString => EmptyString
  | String c rest =>
      if bool_decide (c = Ascii.zero) then EmptyString
      else String c (c_str rest)
  end.

(** The bytes of a C string that [PyUnicode_FromString] decodes: UTF-8 in
    its shortest form, no surrogates, nothing above U+10FFFF. *)
Definition byte_in (lo hi : N) (c : Ascii.ascii) : bool :=
  ((lo <=? Ascii.N_of_ascii c) && (Ascii.N_of_ascii c <=? hi))%N.

Definition continuation_byte : Ascii.ascii → bool := byte_in 128 191.

Fixpoint valid_utf8 (s : string) : bool :=
  match s with
  | EmptyString => true
  | String c rest =>
      if byte_in 0 127 c then valid_utf8 rest
      else if byte_in 194 223 c then
        match rest with
        | String c2 rest2 => continuation_byte c2 && valid_utf8 rest2
        | _ => false
        end
      else if byte_in 224 239 c then
        match rest with
        | String c2 (String c3 rest3) =>
            (if byte_in 224 224 c then byte_in 160 191 c2
             else if byte_in 237 237 c then byte_in 128 159 c2
             else continuation_byte c2)
            && continuation_byte c3 && valid_utf8 rest3
        | _ => false
        end
      else if byte_in 240 244 c then
        match rest with
        | String c2 (String c3 (String c4 rest4)) =>
            (if byte_in 240 240 c then byte_in 144 191 c2
             else if byte_in 244 244 c then byte_in 128 143 c2
             else continuation_byte c2)
            && continuation_byte c3 && continuation_byte c4
            && valid_utf8 rest4
        | _ => false
        end
      else false
  end.

Definition newline : string := String (Ascii.ascii_of_nat 10) EmptyString.

Definition error_prefix : string :=
  "Python exception was raised on the server".
Definition no_message_suffix : string :=
  " but the exception message could not be caught.   ".

(** [needle] occurs in [hay]. *)
Definition contains (hay needle : string) : Prop :=
  ∃ pre post, hay = pre +:+ needle +:+ post.

(** ** Operations on the world *)

Section Handler.
Context {Payload : Type} {R : PyRuntime Payload}.

(** What a thread does that another thread, or the interpreter, can see. *)
Inductive Event :=
  | EvCreateTensorLookup
  | EvGilScopedAcquire          (* pybind11::gil_scoped_acquire, constructor *)
  | EvGilScopedAcquireEnd       (* ... destructor *)
  | EvGilScopedRelease          (* pybind11::gil_scoped_release, constructor *)
  | EvGilScopedReleaseEnd       (* ... destructor *)
  | EvPyTuple_New (n : nat)
  | EvPyTuple_SET_ITEM (i : nat)
  | EvPyDict_New
  | EvPyDict_SetItemString (key : string)
  | EvDeserializePyObject (p : Payload)
  | EvPyObject_Call (f : PyObject)
  | EvSerializePyObject
  | EvPythonExceptionErrorCode
  | EvFetchPendingException
  | EvSafePyObjectPtrEnd (var : string)   (* SafePyObjectPtr, destructor *)
  | EvPy_INCREF (o : PyObject)
  | EvPy_DECREF (o : PyObject)
  | EvLog (msg : string).

(** The operations that read or write objects of the interpreter. *)
Definition touches_runtime (e : Event) : bool :=
  match e with
  | EvPyTuple_New _ | EvPyTuple_SET_ITEM _ | EvPyDict_New
  | EvPyDict_SetItemString _ | EvDeserializePyObject _ | EvPyObject_Call _
  | EvSerializePyObject | EvPythonExceptionErrorCode
  | EvFetchPendingException | EvSafePyObjectPtrEnd _
  | EvPy_INCREF _ | EvPy_DECREF _ => true
  | _ => false
  end.

(** [gil]: whether the calling thread holds the GIL. [log]: oldest first,
    each event with the value of [gil] when it ran. *)
Record World := mkWorld {
  gil : bool;
  py : PyState;
  log : list (Event * bool)
}.

Definition M (A : Type) : Type := World → A * World.

Definition ret {A} (a : A) : M A := λ w, (a, w).
Definition bind {A B} (m : M A) (k : A → M B) : M B :=
  λ w, let '(a, w') := m w in k a w'.

Definition emit (e : Event) (w : World) : World :=
  mkWorld (gil w) (py w) (log w ++ [(e, gil w)]).

(** An operation of the runtime: logged, then run on the interpreter state. *)
Definition py_op {A} (e : Event) (f : PyState → A * PyState) : M A :=
  λ w, let '(a, s) := f (py w) in
       (a, mkWorld (gil w) s (log w ++ [(e, gil w)])).

(** A logged step that leaves the interpreter state alone. *)
Definition step {A} (e : Event) (a : A) : M A := λ w, (a, emit e w).

(** [pybind11::gil_scoped_acquire guard; body]: takes the GIL unless the
    thread holds it already, and on leaving the scope, by whichever path,
    gives it back if it was this guard that took it. *)
Definition gil_scoped_acquire {A} (body : M A) : M A :=
  λ w, let release := negb (gil w) in
       let w1 := mkWorld true (py w) (log w ++ [(EvGilScopedAcquire, gil w)]) in
       let '(a, w2) := body w1 in
       (a, mkWorld (if release then false else gil w2) (py w2)
                   (log w2 ++ [(EvGilScopedAcquireEnd, gil w2)])).

(** [pybind11::gil_scoped_release guard; body]: [PyEval_SaveThread] on
    entry, [PyEval_RestoreThread] on leaving the scope. *)
Definition gil_scoped_release {A} (body : M A) : M A :=
  λ w, let w1 := mkWorld false (py w) (log w ++ [(EvGilScopedRelease, gil w)]) in
       let '(a, w2) := body w1 in
       (a, mkWorld true (py w2) (log w2 ++ [(EvGilScopedReleaseEnd, gil w2)])).

(** [courier::SafePyObjectPtr var(...); body]: the reference is dropped when
    the scope is left, unless the pointer is null. The drop is recorded as
    an operation on the interpreter, which is what the GIL discipline is
    about. The reference counts of the objects built during a call are not
    tracked in [PyState] here, so the drop leaves the state as it is: the
    interpreter states named in the properties of [Call] are states up to
    those counts. *)
Definition SafePyObjectPtr_scope {A} (var : string) (non_null : bool)
  (body : M A) : M A :=
  λ w, let '(a, w') := body w in
       (a, if non_null then emit (EvSafePyObjectPtrEnd var) w' else w').

(** Python tuples and dicts under construction. *)
Definition PyTuple_New (n : nat) : list (option PyObject) := replicate n None.
Definition PyTuple_SET_ITEM (t : list (option PyObject)) (i : nat)
  (o : PyObject) : list (option PyObject) := <[i := Some o]> t.
Definition PyDict_New : list (string * PyObject) := [].
(** [PyDict_SetItem] with a [str] key: the value under the key is replaced,
    or the entry is added. *)
Fixpoint PyDict_SetItem (d : list (string * PyObject)) (key : string)
  (v : PyObject) : list (string * PyObject) :=
  match d with
  | [] => [(key, v)]
  | (k, v0) :: rest =>
      if bool_decide (k = key) then (k, v) :: rest
      else (k, v0) :: PyDict_SetItem rest key v
  end.

(** [PyDict_SetItemString(d, key, v)] makes a [str] of the C string [key]
    with [PyUnicode_FromString] and stores [v] under it. When the key is not
    UTF-8 it fails: the dict stays as it was and an exception is pending.
    What is returned here is the dict afterwards; the int the function
    returns, 0 or -1, is dropped by [Call] (line 102). *)
Definition PyDict_SetItemString (d : list (string * PyObject)) (key : string)
  (v : PyObject) (s : PyState) : list (string * PyObject) * PyState :=
  if valid_utf8 key then (PyDict_SetItem d key v, s)
  else (d, PyUnicode_FromString_fail key s).

Notation "x <~ m ;; k" := (bind m (λ x, k))
  (at level 100, m at next level, right associativity, only parsing).

(** ** PyCallHandler (py_call.cc, lines 69-130) *)

(** [PythonExceptionErrorCode()] as called from [Call]: it reads the error
    indicator and leaves it in place. *)
Definition PythonExceptionErrorCode_op : M StatusCode :=
  py_op EvPythonExceptionErrorCode
    (λ s, (PythonExceptionErrorCode (PyErr_Occurred s), s)).

(** Lines 91-95: the loop over [arguments.args(i)], from index [i] on. *)
Fixpoint deserialize_args (lookup : TensorLookup) (rest : list Payload)
  (i : nat) (py_args : list (option PyObject))
  : M (StatusOr (list (option PyObject))) :=
  match rest with
  | [] => ret (Value py_args)
  | p :: rest' =>
      r <~ py_op (EvDeserializePyObject p) (DeserializePyObject p lookup) ;;
      match r with
      | Error s => ret (Error s)
      | Value py_arg =>
          t <~ step (EvPyTuple_SET_ITEM i) (PyTuple_SET_ITEM py_args i py_arg) ;;
          deserialize_args lookup rest' (S i) t
      end
  end.

(** Lines 99-103: the range-for over [arguments.kwargs()]. [py_value] lives
    for one iteration. *)
Fixpoint deserialize_kwargs (lookup : TensorLookup)
  (rest : list (string * Payload)) (py_kwargs : list (string * PyObject))
  : M (StatusOr (list (string * PyObject))) :=
  match rest with
  | [] => ret (Value py_kwargs)
  | kv :: rest' =>
      r <~ py_op (EvDeserializePyObject kv.2)
                 (DeserializePyObject kv.2 lookup) ;;
      match r with
      | Error s => ret (Error s)
      | Value py_value =>
          d <~ SafePyObjectPtr_scope "py_value" true
                 (py_op (EvPyDict_SetItemString (c_str kv.1))
                    (PyDict_SetItemString py_kwargs (c_str kv.1) py_value)) ;;
          deserialize_kwargs lookup rest' d
      end
  end.

(** Lines 108-125: what [Call] does with the result of [PyObject_Call]. *)
Definition handle_result (py_result : option PyObject)
  : M (StatusOr (CallResult Payload)) :=
  match py_result with
  | Some obj =>
      r <~ py_op EvSerializePyObject (SerializePyObject obj) ;;
      if ok r.1 then ret (Value (mkCallResult r.2)) else ret (Error r.1)
  | None =>
      status_code <~ PythonExceptionErrorCode_op ;;
      fetched <~ py_op EvFetchPendingException FetchPendingException ;;
      match fetched with
      | Some exception =>
          let error_message := error_prefix +:+ ":" +:+ newline +:+ exception in
          _ <~ step (EvLog error_message) tt ;;
          ret (Error (mkStatus status_code error_message))
      | None =>
          ret (Error (InternalError (error_prefix +:+ no_message_suffix)))
      end
  end.

(** Lines 87-125: the part of [Call] inside the scope of the GIL guard. *)
Definition Call_with_gil (py_func : PyObject)
  (arguments : CallArguments Payload) (lookup : TensorLookup)
  : M (StatusOr (CallResult Payload)) :=
  let n := length (args arguments) in
  py_args <~ step (EvPyTuple_New n) (PyTuple_New n) ;;
  SafePyObjectPtr_scope "py_args" true (
    r <~ deserialize_args lookup (args arguments) 0 py_args ;;
    match r with
    | Error s => ret (Error s)
    | Value py_args =>
        py_kwargs <~ step EvPyDict_New PyDict_New ;;
        SafePyObjectPtr_scope "py_kwargs" true (
          r <~ deserialize_kwargs lookup (kwargs_iteration arguments)
                 py_kwargs ;;
          match r with
          | Error s => ret (Error s)
          | Value py_kwargs =>
              py_result <~ py_op (EvPyObject_Call py_func)
                             (PyObject_Call py_func py_args py_kwargs) ;;
              SafePyObjectPtr_scope "py_result"
                (bool_decide (is_Some py_result))
                (handle_result py_result)
          end)
    end).

(** [PyCallHandler::Call] (lines 80-126). *)
Definition Call (py_func : PyObject) (endpoint : string)
  (arguments : CallArguments Payload) : M (StatusOr (CallResult Payload)) :=
  r <~ step EvCreateTensorLookup (CreateTensorLookup arguments) ;;
  match r with
  | Error s => ret (Error s)
  | Value lookup => gil_scoped_acquire (Call_with_gil py_func arguments lookup)
  end.

(** The constructor (lines 71-73) and the destructor (lines 75-78). *)
Definition PyCallHandler_ctor (py_func : PyObject) : M unit :=
  py_op (EvPy_INCREF py_func) (λ s, (tt, Py_INCREF py_func s)).

Definition PyCallHandler_dtor (py_func : PyObject) : M unit :=
  gil_scoped_acquire
    (py_op (EvPy_DECREF py_func) (λ s, (tt, Py_DECREF py_func s))).

(** [HandlerInterface]: the virtual [Call] and the virtual destructor. *)
Record HandlerInterface := mkHandler {
  handler_Call :
    string → CallArguments Payload → M (StatusOr (CallResult Payload));
  handler_dtor : M unit
}.

Definition PyCallHandler (py_func : PyObject) : HandlerInterface :=
  mkHandler (Call py_func) (PyCallHandler_dtor py_func).

(** [BuildPyCallHandler] (lines 134-136). *)
Definition BuildPyCallHandler (py_func : PyObject) : M HandlerInterface :=
  _ <~ PyCallHandler_ctor py_func ;;
  ret (PyCallHandler py_func).

(** ** Reading a log *)

Definition payload_of (e : Event) : option Payload :=
  match e with
  | EvDeserializePyObject p => Some p
  | _ => None
  end.

(** The payloads handed to [DeserializePyObject], in the order of the calls. *)
Definition payloads (evs : list Event) : list Payload := omap payload_of evs.
Definition decoded (l : list (Event * bool)) : list Payload :=
  payloads l.*1.

(** Positional arguments in sequence order, then the keyword arguments as
    the map enumerates them. *)
Definition decode_order (arguments : CallArguments Payload) : list Payload :=
  args arguments ++ (kwargs_iteration arguments).*2.

(** What a computation appends to the log it is started with. *)
Definition new_events {A} (m : M A) (w : World) : list (Event * bool) :=
  drop (length (log w)) (log (m w).2).

Definition gil_guard_event (e : Event) : bool :=
  match e with
  | EvGilScopedAcquire | EvGilScopedAcquireEnd
  | EvGilScopedRelease | EvGilScopedReleaseEnd => true
  | _ => false
  end.

(** The events of the body of [Call] after the guard: anything but a guard
    event and the building of the tensor lookup. *)
Definition section_event (e : Event) : bool :=
  match e with
  | EvCreateTensorLookup => false
  | _ => negb (gil_guard_event e)
  end.

(** Every operation on the interpreter recorded in [l] ran with the GIL
    held. *)
Definition runtime_ops_hold_gil (l : list (Event * bool)) : Prop :=
  Forall (λ eb, touches_runtime eb.1 = true → eb.2 = true) l.

(** The events of the two decoding loops. *)
Definition loop_event (e : Event) : bool :=
  match e with
  | EvDeserializePyObject _ | EvPyTuple_SET_ITEM _
  | EvPyDict_SetItemString _ | EvSafePyObjectPtrEnd _ => true
  | _ => false
  end.

Definition stamp (g : bool) (evs : list Event) : list (Event * bool) :=
  map (λ e, (e, g)) evs.

(** A computation observed from an interpreter state alone: started with
    the GIL held and an empty log. *)
Definition fresh (s : PyState) : World := mkWorld true s [].
Definition result_from {A} (m : M A) (s : PyState) : A := (m (fresh s)).1.
Definition state_from {A} (m : M A) (s : PyState) : PyState :=
  py (m (fresh s)).2.
Definition events_from {A} (m : M A) (s : PyState) : list Event :=
  (log (m (fresh s)).2).*1.

(** [m] neither takes nor gives up the GIL, and what it returns, does to the
    interpreter and appends to the log depends on the interpreter state only;
    every event it logs carries the GIL flag it was started with. *)
Definition plain {A} (m : M A) : Prop :=
  ∀ w, m w = (result_from m (py w),
              mkWorld (gil w) (state_from m (py w))
                (log w ++ stamp (gil w) (events_from m (py w)))).

(** The outcome of the two decoding loops of [Call] from interpreter state
    [s]: the tuple and the dict handed to the callable, or the status of the
    first decode that failed, and the interpreter state they leave. *)
Definition decode_outcome (lookup : TensorLookup)
  (arguments : CallArguments Payload) (s : PyState)
  : StatusOr (list (option PyObject) * list (string * PyObject)) * PyState :=
  let m1 := deserialize_args lookup (args arguments) 0
              (PyTuple_New (length (args arguments))) in
  match result_from m1 s with
  | Error st => (Error st, state_from m1 s)
  | Value py_args =>
      let m2 := deserialize_kwargs lookup (kwargs_iteration arguments)
                  PyDict_New in
      match result_from m2 (state_from m1 s) with
      | Error st => (Error st, state_from m2 (state_from m1 s))
      | Value py_kwargs =>
          (Value (py_args, py_kwargs), state_from m2 (state_from m1 s))
      end
  end.

End Handler.

(** ** Router *)

Section Router.
Context {Payload : Type} {R : PyRuntime Payload}.

Local Notation "x <~ m ;; k" := (bind m (λ x, k))
  (at level 100, m at next level, right associativity, only parsing).

(** Modelled from the spec: the [Router] class ([courier/router.h] and its
    implementation are not among the files; [router.cc] only names
    [Router::Bind] and [Router::Unbind]). Section 4.1: a registry from
    endpoint names to handlers. [Bind] fails with [AlreadyExists] if the name
    is registered and otherwise takes ownership of the handler and returns
    [Ok]. [Unbind] fails with [NotFound] if the name is not registered and
    otherwise removes the handler and releases it. [Dispatch] fails with
    [NotFound] if the name is unregistered and otherwise forwards to the
    bound handler's [Call] and returns its outcome unchanged. Each method
    returns the registry it leaves behind. *)
Definition Router_Bind (name : string) (handler : HandlerInterface)
  (registry : gmap string HandlerInterface)
  : M (Status * gmap string HandlerInterface) :=
  match registry !! name with
  | Some _ => ret (mkStatus kAlreadyExists name, registry)
  | None => ret (OkStatus, <[name := handler]> registry)
  end.

Definition Router_Unbind (name : string)
  (registry : gmap string HandlerInterface)
  : M (Status * gmap string HandlerInterface) :=
  match registry !! name with
  | None => ret (mkStatus kNotFound name, registry)
  | Some handler =>
      _ <~ handler_dtor handler ;;
      ret (OkStatus, delete name registry)
  end.

Definition Router_Dispatch (name : string) (arguments : CallArguments Payload)
  (registry : gmap string HandlerInterface)
  : M (StatusOr (CallResult Payload) * gmap string HandlerInterface) :=
  match registry !! name with
  | None => ret (Error (mkStatus kNotFound name), registry)
  | Some handler =>
      r <~ handler_Call handler name arguments ;;
      ret (r, registry)
  end.

(** ** The Python module (router.cc, lines 28-35) *)

(** The extra argument of [.def]: nothing, or
    [py::call_guard<py::gil_scoped_release>()]. *)
Inductive call_guard := no_call_guard | call_guard_gil_scoped_release.

(** What a [.def] binds a name to. *)
Inductive RouterMember :=
  | Router_init        (* py::init<>() *)
  | Router_Bind_ptr    (* &Router::Bind *)
  | Router_Unbind_ptr. (* &Router::Unbind *)

Record method_def := mkDef {
  def_name : string;
  def_member : RouterMember;
  def_guard : call_guard
}.

(** [py::class_<Router>(m, "Router")] and its three [.def]s. *)
Definition Router_class : list method_def :=
  [ mkDef "__init__" Router_init no_call_guard;
    mkDef "Bind" Router_Bind_ptr no_call_guard;
    mkDef "Unbind" Router_Unbind_ptr call_guard_gil_scoped_release ].

(** Attribute lookup on the class. *)
Definition find_method (cls : list method_def) (name : string)
  : option method_def :=
  List.find (λ d, bool_decide (def_name d = name)) cls.

(** Every name of [names] is a method of the class. *)
Definition exposes (cls : list method_def) (names : list string) : Prop :=
  Forall (λ n, is_Some (find_method cls n)) names.

(** The arguments of a call made from Python. *)
Inductive PyCallArgs :=
  | NoArgs
  | NameArg (name : string)
  | NameHandlerArgs (name : string) (handler : HandlerInterface).

(** The bound member applied to converted arguments; [None] when the
    arguments do not fit its signature. *)
Definition invoke_member (m : RouterMember) (a : PyCallArgs)
  (registry : gmap string HandlerInterface)
  : option (M (Status * gmap string HandlerInterface)) :=
  match m, a with
  | Router_init, NoArgs => Some (ret (OkStatus, ∅))
  | Router_Bind_ptr, NameHandlerArgs name handler =>
      Some (Router_Bind name handler registry)
  | Router_Unbind_ptr, NameArg name => Some (Router_Unbind name registry)
  | _, _ => None
  end.

Definition with_call_guard {A} (g : call_guard) (body : M A) : M A :=
  match g with
  | no_call_guard => body
  | call_guard_gil_scoped_release => gil_scoped_release body
  end.

(** [router.<name>(args)] from Python; [None] when the class has no such
    method or the arguments do not fit. *)
Definition py_call_method (cls : list method_def) (name : string)
  (a : PyCallArgs) (registry : gmap string HandlerInterface)
  : option (M (Status * gmap string HandlerInterface)) :=
  match find_method cls name with
  | None => None
  | Some d =>
      match invoke_member (def_member d) a registry with
      | None => None
      | Some body => Some (with_call_guard (def_guard d) body)
      end
  end.

End Router.

(** ** A small runtime to run the definitions on

    Payloads and objects are numbers. Callable 0 adds its positional
    arguments; callable 1 raises [KeyError] with a message; callable 2 raises
    an exception whose text cannot be produced; callable 3 raises the
    two-category class [MissingField_type]. Payload 13 cannot be decoded.
    A callable that returns while an exception is pending has its result
    replaced by a [SystemError], as [PyObject_Call] does. *)
Module Toy.

Record State := mkState {
  pending : option (PyTypeObject * option string);
  refcnt : gmap nat nat
}.

Definition init : State := mkState None ∅.

Definition raise (t : PyTypeObject) (text : option string) (s : State)
  : State := mkState (Some (t, text)) (refcnt s).

Definition deserialize (p : nat) (_ : unit) (s : State)
  : StatusOr nat * State :=
  if bool_decide (p = 13)
  then (Error (mkStatus kInvalidArgument "cannot decode"), s)
  else (Value p, s).

Definition sum_args (l : list (option nat)) : nat :=
  foldr (λ o acc, default 0 o + acc) 0 l.

Definition call (f : nat) (a : list (option nat)) (kw : list (string * nat))
  (s : State) : option nat * State :=
  match f with
  | 0 => if bool_decide (is_Some (pending s))
         then (None, raise SystemError_type
                       (Some "SystemError: returned a result with an exception set")
                       s)
         else (Some (sum_args a), s)
  | 1 => (None, raise KeyError_type (Some "KeyError: 'key missing'") s)
  | 2 => (None, raise RuntimeError_type None s)
  | 3 => (None, raise MissingField_type (Some "MissingField: id") s)
  | _ => (None, raise (mkType [PyExc_TypeError; PyExc_Exception;
                               PyExc_BaseException])
                  (Some "TypeError: object is not callable") s)
  end.

Definition fetch (s : State) : option string * State :=
  match pending s with
  | Some (_, text) => (text, mkState None (refcnt s))
  | None => (None, s)
  end.

Definition incref (o : nat) (s : State) : State :=
  mkState (pending s) (<[o := S (default 0 (refcnt s !! o))]> (refcnt s)).
Definition decref (o : nat) (s : State) : State :=
  mkState (pending s) (<[o := pred (default 0 (refcnt s !! o))]> (refcnt s)).

#[global] Instance runtime : PyRuntime nat := {|
  TensorLookup := unit;
  PyObject := nat;
  PyState := State;
  CreateTensorLookup := λ _, Value tt;
  DeserializePyObject := deserialize;
  SerializePyObject := λ o s, ((OkStatus, o), s);
  PyObject_Call := call;
  PyErr_Occurred := λ s, fst <$> pending s;
  FetchPendingException := fetch;
  Py_INCREF := incref;
  Py_DECREF := decref;
  PyUnicode_FromString_fail := λ _,
    raise UnicodeDecodeError_type
      (Some "UnicodeDecodeError: 'utf-8' codec can't decode byte");
  Map_iteration := map_to_list;
  Map_iteration_perm := λ m, reflexivity (map_to_list m)
|}.

(** A server thread (GIL not held) and a Python thread (GIL held), both with
    an empty log. *)
Definition server_thread : World := mkWorld false init [].
Definition python_thread : World := mkWorld true init [].

Definition request (a : list nat) (kw : list (string * nat))
  : CallArguments nat := ParseCallArguments (mkWire a kw).

End Toy.

(** ** Logging (platform/default/logging.h)

    The macros are statements; a statement is a function on the state of the
    program: the state of the code around it, [std::clog], [std::cerr], and
    whether [std::abort] has been called. An expression streamed with [<<]
    is run when the statement reaches it and may change the state around. *)
Module Logging.

Record Streams := mkStreams {
  clog : string;
  cerr : string;
  aborted : bool
}.

Definition write_clog (text : string) (io : Streams) : Streams :=
  mkStreams (clog io +:+ text) (cerr io) (aborted io).

(** [operator<<] on an [int]: its decimal digits, with a sign if negative. *)
Definition show_int (v : Z) : string := pretty v.

(** [struct CheckOpString] (lines 56-60): a string or a null pointer;
    [operator bool] tests for the string. *)
Definition CheckOpString := option string.
Definition CheckOpString_bool (r : CheckOpString) : bool :=
  match r with Some _ => true | None => false end.

(** [MakeCheckOpString] (lines 62-68), at [int]. *)
Definition MakeCheckOpString (v1 v2 : Z) (exprtext : string)
  : CheckOpString :=
  Some (exprtext +:+ " (" +:+ show_int v1 +:+ " vs. " +:+ show_int v2
        +:+ ")").

(** [DEFINE_CHECK_OP_IMPL(name, op)] (lines 70-88): the six instances. *)
Inductive CheckOp := Check_EQ | Check_NE | Check_LE | Check_LT | Check_GE
  | Check_GT.

Definition op_test (name : CheckOp) (v1 v2 : Z) : bool :=
  match name with
  | Check_EQ => v1 =? v2
  | Check_NE => negb (v1 =? v2)
  | Check_LE => v1 <=? v2
  | Check_LT => v1 <? v2
  | Check_GE => v1 >=? v2
  | Check_GT => v1 >? v2
  end%Z.

Definition op_text (name : CheckOp) : string :=
  match name with
  | Check_EQ => "=="
  | Check_NE => "!="
  | Check_LE => "<="
  | Check_LT => "<"
  | Check_GE => ">="
  | Check_GT => ">"
  end.

(** [name##Impl(int v1, int v2, const char* exprtext)]. *)
Definition CheckOpImpl (name : CheckOp) (v1 v2 : Z) (exprtext : string)
  : CheckOpString :=
  if op_test name v1 v2 then None else MakeCheckOpString v1 v2 exprtext.

(** What each check is meant to test. *)
Definition op_holds (name : CheckOp) (v1 v2 : Z) : Prop :=
  match name with
  | Check_EQ => v1 = v2
  | Check_NE => v1 ≠ v2
  | Check_LE => (v1 ≤ v2)%Z
  | Check_LT => (v1 < v2)%Z
  | Check_GE => (v1 >= v2)%Z
  | Check_GT => (v1 > v2)%Z
  end.

(** [enum class LogSeverity] and the five level macros (lines 132-135,
    207-211). *)
Inductive LogSeverity := kFatal | kNonFatal.
Definition COURIER_INFO := kNonFatal.
Definition COURIER_ERROR := kNonFatal.

Section Statements.
Context {U : Type}.

(** The operands of [<<], as one: the text they stream and what running
    them does to the state around. *)
Definition Streamed : Type := U → string * U.

(** [LogMessage(file, line).stream() << msg;] (lines 91-100): the
    constructor writes the prefix, the operands are streamed into
    [std::clog], the destructor writes the end of the line. *)
Definition LogMessage_statement (file : string) (line : Z) (msg : Streamed)
  (st : U * Streams) : U * Streams :=
  let io1 := write_clog ("[" +:+ file +:+ ":" +:+ show_int line +:+ "] ")
               st.2 in
  let r := msg st.1 in
  (r.2, write_clog newline (write_clog r.1 io1)).

(** [LogMessageFatal(file, line[, result]).stream() << msg;] (lines
    102-123): the text is gathered in [stream_]; the destructor writes it
    and [std::endl] to [std::cerr] and aborts. [check] is the text of the
    failed check for the three-argument constructor. *)
Definition LogMessageFatal_statement (file : string) (line : Z)
  (check : option string) (msg : Streamed) (st : U * Streams)
  : U * Streams :=
  let stream_ := "[" +:+ file +:+ ":" +:+ show_int line +:+ "] "
                 +:+ match check with
                     | Some str => "Check failed: " +:+ str
                     | None => ""
                     end in
  let r := msg st.1 in
  (r.2, mkStreams (clog st.2) (cerr st.2 +:+ (stream_ +:+ r.1) +:+ newline)
          true).

(** [COURIER_LOG(level) << msg;] (lines 213-217): the class is chosen by
    the overload of [LogStream] for the level. *)
Definition COURIER_LOG (level : LogSeverity) (file : string) (line : Z)
  (msg : Streamed) : U * Streams → U * Streams :=
  match level with
  | kNonFatal => LogMessage_statement file line msg
  | kFatal => LogMessageFatal_statement file line None msg
  end.

(** [COURIER_VLOG(level) << msg;] (lines 125-130, 219): the level is
    dropped by the macro; the operands are arguments of [operator<<] on a
    [NullStream], which ignores them. *)
Definition COURIER_VLOG (msg : Streamed) (st : U * Streams) : U * Streams :=
  ((msg st.1).2, st.2).

(** [COURIER_LOG_IF(level, condition) << msg;] (lines 221-228). *)
Definition COURIER_LOG_IF (level : LogSeverity) (condition : U → bool * U)
  (file : string) (line : Z) (msg : Streamed) (st : U * Streams)
  : U * Streams :=
  let c := condition st.1 in
  if negb c.1 then (c.2, st.2)
  else COURIER_LOG level file line msg (c.2, st.2).

(** [COURIER_CHECK(condition) << msg;] (lines 200-203). The body of the
    [while] ends in [std::abort], so it runs at most once. [text] is the
    condition as written ([#condition]). *)
Definition COURIER_CHECK (condition : U → bool * U) (text : string)
  (file : string) (line : Z) (msg : Streamed) (st : U * Streams)
  : U * Streams :=
  let c := condition st.1 in
  let _result : CheckOpString := if c.1 then None else Some text in
  match _result with
  | Some str => LogMessageFatal_statement file line (Some str) msg (c.2, st.2)
  | None => (c.2, st.2)
  end.

(** [COURIER_CHECK_OP(name, op, val1, val2) << msg;] (lines 176-184), with
    [text1] and [text2] the operands as written. *)
Definition COURIER_CHECK_OP (name : CheckOp) (val1 val2 : Z)
  (text1 text2 : string) (file : string) (line : Z) (msg : Streamed)
  (st : U * Streams) : U * Streams :=
  match CheckOpImpl name val1 val2
          (text1 +:+ " " +:+ op_text name +:+ " " +:+ text2) with
  | Some str => LogMessageFatal_statement file line (Some str) msg st
  | None => st
  end.

(** Lines 186-198. *)
Definition COURIER_CHECK_EQ := COURIER_CHECK_OP Check_EQ.
Definition COURIER_CHECK_NE := COURIER_CHECK_OP Check_NE.
Definition COURIER_CHECK_LE := COURIER_CHECK_OP Check_LE.
Definition COURIER_CHECK_LT := COURIER_CHECK_OP Check_LT.
Definition COURIER_CHECK_GE := COURIER_CHECK_OP Check_GE.
Definition COURIER_CHECK_GT := COURIER_CHECK_OP Check_GT.
Definition COURIER_QCHECK_EQ := COURIER_CHECK_OP Check_EQ.
Definition COURIER_QCHECK_NE := COURIER_CHECK_OP Check_NE.
Definition COURIER_QCHECK_LE := COURIER_CHECK_OP Check_LE.
Definition COURIER_QCHECK_LT := COURIER_CHECK_OP Check_LT.
Definition COURIER_QCHECK_GE := COURIER_CHECK_OP Check_GE.
Definition COURIER_QCHECK_GT := COURIER_CHECK_OP Check_GT.
Definition COURIER_QCHECK := COURIER_CHECK.

(** *** The stateful conditions (lines 146-171, 230-254)

    The three nested [for] statements of
    [COURIER_LOGGING_INTERNAL_STATEFUL_CONDITION], run with a bound on the
    number of tests of each loop. A frame holds the loop variable, the
    counter of the static state object, and the program. [ShouldLog] is
    declared in the header and defined elsewhere: it is a parameter, taking
    its argument and the counter and returning its answer and the counter. *)
Record Frame := mkFrame {
  do_log : bool;
  counter_ : Z;
  program : U * Streams
}.

Definition clear_do_log (f : Frame) : Frame :=
  mkFrame false (counter_ f) (program f).

(** [for (; cond; step) body]: [None] when the bound is used up. A body that
    aborted ends everything. *)
Fixpoint for_loop (fuel : nat) (cond : Frame → bool * Frame)
  (body : Frame → option Frame) (step : Frame → Frame) (f : Frame)
  : option Frame :=
  match fuel with
  | 0 => None
  | S fuel' =>
      let c := cond f in
      if c.1 then
        match body c.2 with
        | None => None
        | Some f' =>
            if aborted (program f').2 then Some f'
            else for_loop fuel' cond body step (step f')
        end
      else Some c.2
  end.

Definition STATEFUL_CONDITION (fuel : nat) (ShouldLog : Z → Z → bool * Z)
  (condition : bool) (arg : Z) (statement : Z → U * Streams → U * Streams)
  (counter : Z) (st : U * Streams) : option Frame :=
  for_loop fuel
    (λ f, (do_log f, f))
    (λ f,
       for_loop fuel
         (λ f, if do_log f
               then let r := ShouldLog arg (counter_ f) in
                    (r.1, mkFrame (do_log f) r.2 (program f))
               else (false, f))
         (λ f,
            let COUNTER := counter_ f in
            for_loop fuel
              (λ f, (do_log f, f))
              (λ f, Some (mkFrame (do_log f) (counter_ f)
                            (statement COUNTER (program f))))
              clear_do_log f)
         clear_do_log f)
    clear_do_log
    (mkFrame condition counter st).

(** [COURIER_LOG_EVERY_N], [COURIER_LOG_FIRST_N], [COURIER_LOG_EVERY_POW_2]
    (lines 244-254), each with the [ShouldLog] of its state class. *)
Definition COURIER_LOG_EVERY_N (fuel : nat) (ShouldLog : Z → Z → bool * Z)
  (level : LogSeverity) (n : Z) (file : string) (line : Z)
  (msg : Z → Streamed) : Z → U * Streams → option Frame :=
  STATEFUL_CONDITION fuel ShouldLog true n
    (λ COUNTER, COURIER_LOG level file line (msg COUNTER)).
Definition COURIER_LOG_FIRST_N := COURIER_LOG_EVERY_N.
Definition COURIER_LOG_EVERY_POW_2 (fuel : nat)
  (ShouldLog : Z → Z → bool * Z) (level : LogSeverity) (file : string)
  (line : Z) (msg : Z → Streamed) : Z → U * Streams → option Frame :=
  STATEFUL_CONDITION fuel ShouldLog true 0
    (λ COUNTER, COURIER_LOG level file line (msg COUNTER)).

End Statements.

(** A [ShouldLog] to run the macros with: yes on every [n]-th call. *)
Definition every_nth (n counter : Z) : bool * Z :=
  ((0 <? n)%Z && (counter `mod` n =? 0)%Z, (counter + 1)%Z).

End Logging.

(** ** What [Call] writes to [std::clog]

    Line 120 of py_call.cc is [COURIER_LOG(COURIER_ERROR) << error_message;]:
    the [EvLog] events of a run, replayed through the logging macro. [file]
    is what [__FILE__] expands to. *)
Section CallLogging.
Context {Payload : Type} {R : PyRuntime Payload}.

Definition log_of (e : Event) : option string :=
  match e with
  | EvLog msg => Some msg
  | _ => None
  end.

Definition logged (evs : list Event) : list string := omap log_of evs.

Definition log_output (file : string) (evs : list Event)
  (io : Logging.Streams) : Logging.Streams :=
  foldl (λ io msg,
           (Logging.COURIER_LOG Logging.COURIER_ERROR file 120
              (λ u : unit, (msg, u)) (tt, io)).2)
    io (logged evs).

End CallLogging.

(** * Properties *)

(** ** The error mapper *)

Example code_KeyError :
  PythonExceptionErrorCode (Some KeyError_type) = kNotFound.
Proof. reflexivity. Qed.

Example code_UnicodeError :
  PythonExceptionErrorCode (Some UnicodeError_type) = kInvalidArgument.
Proof. reflexivity. Qed.

Example code_IndentationError :
  PythonExceptionErrorCode (Some IndentationError_type) = kInternal.
Proof. reflexivity. Qed.

Example code_NotImplementedError :
  PythonExceptionErrorCode (Some NotImplementedError_type) = kUnimplemented.
Proof. reflexivity. Qed.

Example code_RuntimeError :
  PythonExceptionErrorCode (Some RuntimeError_type) = kUnknown.
Proof. reflexivity. Qed.

Example code_AttributeError :
  PythonExceptionErrorCode (Some AttributeError_type) = kUnknown.
Proof. reflexivity. Qed.

Example code_KeyboardInterrupt :
  PythonExceptionErrorCode (Some KeyboardInterrupt_type) = kAborted.
Proof. reflexivity. Qed.

Example code_two_categories :
  in_category category_classes MissingField_type LookupFailure = true
  ∧ in_category category_classes MissingField_type ValueOrTypeMismatch = true
  ∧ PythonExceptionErrorCode (Some MissingField_type) = kInvalidArgument.
Proof. repeat split. Qed.

Example code_no_pending : PythonExceptionErrorCode None = kUnknown.
Proof. reflexivity. Qed.

Lemma PythonExceptionErrorCode_not_ok pending :
  PythonExceptionErrorCode pending ≠ kOk.
Proof.
  unfold PythonExceptionErrorCode.
  repeat match goal with |- context [if ?b then _ else _] => destruct b end;
    discriminate.
Qed.

(** A row of the table decides exactly when no earlier row matches. *)
Lemma first_match_row classes pre c sc post t :
  Forall (λ row, in_category classes t row.1 = false) pre →
  in_category classes t c = true →
  first_match classes (pre ++ (c, sc) :: post) t = sc.
Proof.
  induction 1 as [|[c0 sc0] pre Hrow _ IH]; intros Hc; simpl.
  - by rewrite Hc.
  - simpl in Hrow. rewrite Hrow. by apply IH.
Qed.

Lemma first_match_default classes tbl t :
  Forall (λ row, in_category classes t row.1 = false) tbl →
  first_match classes tbl t = kUnknown.
Proof.
  induction 1 as [|[c0 sc0] tbl Hrow _ IH]; simpl; [done|].
  simpl in Hrow. by rewrite Hrow.
Qed.

(** [PythonExceptionErrorCode] is the table read with the lookup category
    narrowed to [LookupError]. *)
Lemma PythonExceptionErrorCode_amended pending :
  PythonExceptionErrorCode pending = ErrorMapper_amended pending.
Proof.
  destruct pending as [t|]; [|reflexivity].
  unfold PythonExceptionErrorCode, ErrorMapper_amended, ErrorMapper,
    error_table, first_match, in_category, category_classes_amended,
    category_classes, existsb, PyErr_ExceptionMatches.
  rewrite bool_decide_true by eauto. simpl negb. cbv iota.
  rewrite !orb_false_r. reflexivity.
Qed.

(** The two tables part only at the last row, and only for a class that
    derives from [AttributeError] and from no class of any row. *)
Lemma ErrorMapper_spec_amended pending :
  ErrorMapper_spec pending = ErrorMapper_amended pending
  ∨ (PyErr_ExceptionMatches pending PyExc_AttributeError = true
     ∧ ErrorMapper_amended pending = kUnknown
     ∧ ErrorMapper_spec pending = kNotFound).
Proof.
  destruct pending as [t|]; [|by left].
  unfold ErrorMapper_spec, ErrorMapper_amended, ErrorMapper, error_table,
    first_match, in_category, category_classes_amended, category_classes,
    existsb, PyErr_ExceptionMatches.
  rewrite !orb_false_r.
  repeat match goal with
         | |- context [PyType_IsSubtype t ?c] =>
             destruct (PyType_IsSubtype t c); cbn [orb]; cbv iota
         end;
    first [ by left | by right ].
Qed.

(** C1, the claim as stated, fails: an attribute that is not found is a
    lookup failure in the words of section 4.4, row 8, and
    [PythonExceptionErrorCode] gives [Unknown] for it, not [NotFound]. *)
Lemma PythonExceptionErrorCode_AttributeError :
  in_category category_classes AttributeError_type LookupFailure = true
  ∧ Forall (λ row, in_category category_classes AttributeError_type row.1
                   = false)
      (take 6 error_table)
  ∧ ErrorMapper_spec (Some AttributeError_type) = kNotFound
  ∧ PythonExceptionErrorCode (Some AttributeError_type) = kUnknown
  ∧ PythonExceptionErrorCode (Some AttributeError_type)
    ≠ ErrorMapper_spec (Some AttributeError_type).
Proof.
  split; [reflexivity|]. split; [by repeat constructor|].
  split; [reflexivity|]. split; [reflexivity|]. discriminate.
Qed.

(** C1, amended. [PythonExceptionErrorCode] is a total function of the error
    indicator and it is the ordered table read with first-match-wins, the
    lookup category being the classes derived from [LookupError] (a key or
    an index that is not found): no pending failure gives Unknown; otherwise
    the code is that of the first row, in the order InvalidArgument,
    OutOfRange, ResourceExhausted, Unimplemented, Aborted, Internal,
    NotFound, whose category the pending exception belongs to, whatever
    later rows it also matches; and Unknown when it belongs to none, which
    is the case of an attribute that is not found. It gives the code of the
    table of section 4.4 for every pending exception that does not derive
    from [AttributeError]; where the two part, the function gives Unknown
    and that table NotFound. *)
Theorem PythonExceptionErrorCode_first_match (pending : ErrorIndicator) :
  PythonExceptionErrorCode pending = ErrorMapper_amended pending
  ∧ (pending = None → PythonExceptionErrorCode pending = kUnknown)
  ∧ (∀ t pre c sc post,
       pending = Some t →
       error_table = pre ++ (c, sc) :: post →
       Forall (λ row, in_category category_classes_amended t row.1 = false)
         pre →
       in_category category_classes_amended t c = true →
       PythonExceptionErrorCode pending = sc)
  ∧ (∀ t, pending = Some t →
       Forall (λ row, in_category category_classes_amended t row.1 = false)
         error_table →
       PythonExceptionErrorCode pending = kUnknown)
  ∧ (PyErr_ExceptionMatches pending PyExc_AttributeError = false →
       PythonExceptionErrorCode pending = ErrorMapper_spec pending)
  ∧ (PythonExceptionErrorCode pending ≠ ErrorMapper_spec pending →
       PyErr_ExceptionMatches pending PyExc_AttributeError = true
       ∧ PythonExceptionErrorCode pending = kUnknown
       ∧ ErrorMapper_spec pending = kNotFound).
Proof.
  pose proof (PythonExceptionErrorCode_amended pending) as Heq.
  pose proof (ErrorMapper_spec_amended pending) as Hspec.
  split; [exact Heq|]. rewrite Heq. repeat split.
  - by intros ->.
  - intros t pre c sc post -> Htbl Hpre Hc.
    unfold ErrorMapper_amended, ErrorMapper.
    rewrite Htbl. by apply first_match_row.
  - intros t -> Hall. unfold ErrorMapper_amended, ErrorMapper.
    by apply first_match_default.
  - intros Hattr. destruct Hspec as [Hs|(Ha & _)]; congruence.
  - destruct Hspec as [Hs|(Ha & _ & _)]; [congruence|done].
  - destruct Hspec as [Hs|(_ & Hu & _)]; [congruence|done].
  - destruct Hspec as [Hs|(_ & _ & Hn)]; [congruence|done].
Qed.

(** Deriving a class from an exception class never moves its status code to
    a later test: the derived class gets the code of its base or the code of
    an earlier test that one of its other bases passes. In particular a class
    derived from one mapped to [InvalidArgument] is mapped to
    [InvalidArgument], and a class mapped to [Unknown] has only bases mapped
    to [Unknown]. *)
Theorem PythonExceptionErrorCode_derived derived base :
  inherits_all derived base →
  test_order (PythonExceptionErrorCode (Some derived))
  ≤ test_order (PythonExceptionErrorCode (Some base)).
Proof.
  intros Hsub.
  unfold PythonExceptionErrorCode, PyErr_ExceptionMatches, PyType_IsSubtype.
  rewrite !bool_decide_true by eauto. cbn [negb].
  repeat match goal with
         | |- context [bool_decide (?c ∈ tp_mro derived)] =>
             let H := fresh "H" in
             destruct (decide (c ∈ tp_mro derived)) as [H|H];
             [ rewrite (bool_decide_true (c ∈ tp_mro derived)) by exact H
             | rewrite (bool_decide_false (c ∈ tp_mro derived)) by exact H;
               rewrite (bool_decide_false (c ∈ tp_mro base))
                 by (intros H'; apply H, Hsub, H') ];
             cbn [orb]; cbv iota
         end;
    repeat case_bool_decide; cbn; lia.
Qed.

Lemma PythonExceptionErrorCode_derived_witness :
  test_order (PythonExceptionErrorCode (Some MissingField_type))
  ≤ test_order (PythonExceptionErrorCode (Some KeyError_type)).
Proof.
  apply PythonExceptionErrorCode_derived.
  unfold inherits_all. cbn. intros c Hc.
  repeat first [ rewrite elem_of_cons in Hc | rewrite elem_of_nil in Hc ].
  repeat first [ rewrite elem_of_cons | rewrite elem_of_nil ].
  tauto.
Defined.

(** ** Computations that leave the GIL alone *)

Section Plain.
Context {Payload : Type} {R : PyRuntime Payload}.

Local Notation "x <~ m ;; k" := (bind m (λ x, k))
  (at level 100, m at next level, right associativity, only parsing).

Lemma stamp_fst g evs : (stamp g evs).*1 = evs.
Proof. unfold stamp. induction evs; simpl; [done|]. by f_equal. Qed.

Lemma stamp_app g e1 e2 : stamp g (e1 ++ e2) = stamp g e1 ++ stamp g e2.
Proof. apply map_app. Qed.

Lemma payloads_app e1 e2 : payloads (e1 ++ e2) = payloads e1 ++ payloads e2.
Proof. apply omap_app. Qed.

Lemma payloads_cons_None e evs :
  payload_of e = None → payloads (e :: evs) = payloads evs.
Proof. intros H. unfold payloads. simpl. by rewrite H. Qed.

Lemma payloads_cons_Some e p evs :
  payload_of e = Some p → payloads (e :: evs) = p :: payloads evs.
Proof. intros H. unfold payloads. simpl. by rewrite H. Qed.

Lemma payloads_nil : payloads [] = [].
Proof. reflexivity. Qed.

Lemma new_events_app {A} (m : M A) w t :
  log (m w).2 = log w ++ t → new_events m w = t.
Proof. intros H. unfold new_events. rewrite H. apply drop_app_length. Qed.

(** A computation given by a function of the interpreter state is plain, and
    that function is what the three observers return. *)
Lemma plain_of_fun {A} (m : M A) (f : PyState → A * PyState * list Event) :
  (∀ w, m w = ((f (py w)).1.1,
               mkWorld (gil w) (f (py w)).1.2
                 (log w ++ stamp (gil w) (f (py w)).2))) →
  plain m ∧
  ∀ s, result_from m s = (f s).1.1 ∧ state_from m s = (f s).1.2
       ∧ events_from m s = (f s).2.
Proof.
  intros H.
  assert (Hobs : ∀ s, result_from m s = (f s).1.1
                      ∧ state_from m s = (f s).1.2
                      ∧ events_from m s = (f s).2).
  { intros s. unfold result_from, state_from, events_from.
    rewrite (H (fresh s)). simpl. by rewrite stamp_fst. }
  split; [|exact Hobs].
  intros w. rewrite (H w).
  destruct (Hobs (py w)) as (-> & -> & ->). reflexivity.
Qed.

Lemma plain_ret {A} (a : A) :
  plain (ret a) ∧
  ∀ s, result_from (ret a) s = a ∧ state_from (ret a) s = s
       ∧ events_from (ret a) s = [].
Proof.
  apply (plain_of_fun (ret a) (λ s, (a, s, []))).
  intros [g s l]. unfold ret. simpl. by rewrite app_nil_r.
Qed.

Lemma plain_step {A} e (a : A) :
  plain (step e a) ∧
  ∀ s, result_from (step e a) s = a ∧ state_from (step e a) s = s
       ∧ events_from (step e a) s = [e].
Proof.
  apply (plain_of_fun (step e a) (λ s, (a, s, [e]))).
  by intros [g s l].
Qed.

Lemma plain_py_op {A} e (f : PyState → A * PyState) :
  plain (py_op e f) ∧
  ∀ s, result_from (py_op e f) s = (f s).1
       ∧ state_from (py_op e f) s = (f s).2
       ∧ events_from (py_op e f) s = [e].
Proof.
  apply (plain_of_fun (py_op e f) (λ s, ((f s).1, (f s).2, [e]))).
  intros [g s l]. unfold py_op. simpl. by destruct (f s).
Qed.

Lemma plain_bind {A B} (m : M A) (k : A → M B) :
  plain m → (∀ a, plain (k a)) →
  plain (bind m k) ∧
  ∀ s, result_from (bind m k) s
         = result_from (k (result_from m s)) (state_from m s)
       ∧ state_from (bind m k) s
         = state_from (k (result_from m s)) (state_from m s)
       ∧ events_from (bind m k) s
         = events_from m s
           ++ events_from (k (result_from m s)) (state_from m s).
Proof.
  intros Hm Hk.
  apply (plain_of_fun (bind m k)
    (λ s, (result_from (k (result_from m s)) (state_from m s),
           state_from (k (result_from m s)) (state_from m s),
           events_from m s
             ++ events_from (k (result_from m s)) (state_from m s)))).
  intros w. unfold bind. rewrite (Hm w). rewrite (Hk _ _). simpl.
  by rewrite stamp_app, app_assoc.
Qed.

Lemma plain_scope {A} var b (body : M A) :
  plain body →
  plain (SafePyObjectPtr_scope var b body) ∧
  ∀ s, result_from (SafePyObjectPtr_scope var b body) s = result_from body s
       ∧ state_from (SafePyObjectPtr_scope var b body) s = state_from body s
       ∧ events_from (SafePyObjectPtr_scope var b body) s
         = events_from body s
           ++ (if b then [EvSafePyObjectPtrEnd var] else []).
Proof.
  intros Hb.
  apply (plain_of_fun (SafePyObjectPtr_scope var b body)
    (λ s, (result_from body s, state_from body s,
           events_from body s
             ++ (if b then [EvSafePyObjectPtrEnd var] else [])))).
  intros w. unfold SafePyObjectPtr_scope. rewrite (Hb w).
  destruct b; simpl.
  - unfold emit. simpl. by rewrite stamp_app, app_assoc.
  - by rewrite app_nil_r.
Qed.

(** The observers, as rewriting rules. *)
Lemma from_ret {A} (a : A) s :
  result_from (ret a) s = a ∧ state_from (ret a) s = s
  ∧ events_from (ret a) s = [].
Proof. apply plain_ret. Qed.

Lemma from_step {A} e (a : A) s :
  result_from (step e a) s = a ∧ state_from (step e a) s = s
  ∧ events_from (step e a) s = [e].
Proof. apply plain_step. Qed.

Lemma from_py_op {A} e (f : PyState → A * PyState) s :
  result_from (py_op e f) s = (f s).1 ∧ state_from (py_op e f) s = (f s).2
  ∧ events_from (py_op e f) s = [e].
Proof. apply plain_py_op. Qed.

Ltac plain_step_tac :=
  lazymatch goal with
  | |- plain (ret _) => apply plain_ret
  | |- plain (step _ _) => apply plain_step
  | |- plain (py_op _ _) => apply plain_py_op
  | |- plain (bind _ _) => apply plain_bind; [|intros ?]
  | |- plain (SafePyObjectPtr_scope _ _ _) => apply plain_scope
  | |- plain (match ?x with _ => _ end) => destruct x
  | |- plain _ => solve [auto]
  end.
Ltac solve_plain := repeat plain_step_tac.

Lemma plain_deserialize_args lookup rest :
  ∀ i t, plain (deserialize_args lookup rest i t).
Proof. induction rest as [|p rest IH]; intros i t; simpl; solve_plain. Qed.

Lemma plain_deserialize_kwargs lookup rest :
  ∀ d, plain (deserialize_kwargs lookup rest d).
Proof. induction rest as [|kv rest IH]; intros d; simpl; solve_plain. Qed.

Lemma plain_handle_result py_result : plain (handle_result py_result).
Proof.
  unfold handle_result, PythonExceptionErrorCode_op. solve_plain.
Qed.

Lemma plain_Call_with_gil py_func arguments lookup :
  plain (Call_with_gil py_func arguments lookup).
Proof.
  pose proof (plain_deserialize_args lookup) as Ha.
  pose proof (plain_deserialize_kwargs lookup) as Hk.
  pose proof plain_handle_result as Hh.
  unfold Call_with_gil. solve_plain.
Qed.

Local Hint Resolve plain_deserialize_args plain_deserialize_kwargs
  plain_handle_result plain_Call_with_gil : core.

Ltac plain_side := intros; solve_plain.

Lemma result_from_bind {A B} (m : M A) (k : A → M B) s :
  plain m → (∀ a, plain (k a)) →
  result_from (bind m k) s = result_from (k (result_from m s)) (state_from m s).
Proof. intros Hm Hk. by destruct (plain_bind m k Hm Hk) as [_ H]; apply H. Qed.

Lemma state_from_bind {A B} (m : M A) (k : A → M B) s :
  plain m → (∀ a, plain (k a)) →
  state_from (bind m k) s = state_from (k (result_from m s)) (state_from m s).
Proof. intros Hm Hk. by destruct (plain_bind m k Hm Hk) as [_ H]; apply H. Qed.

Lemma events_from_bind {A B} (m : M A) (k : A → M B) s :
  plain m → (∀ a, plain (k a)) →
  events_from (bind m k) s
  = events_from m s ++ events_from (k (result_from m s)) (state_from m s).
Proof. intros Hm Hk. by destruct (plain_bind m k Hm Hk) as [_ H]; apply H. Qed.

Lemma result_from_scope {A} var b (body : M A) s :
  plain body →
  result_from (SafePyObjectPtr_scope var b body) s = result_from body s.
Proof. intros Hb. by destruct (plain_scope var b body Hb) as [_ H]; apply H. Qed.

Lemma state_from_scope {A} var b (body : M A) s :
  plain body →
  state_from (SafePyObjectPtr_scope var b body) s = state_from body s.
Proof. intros Hb. by destruct (plain_scope var b body Hb) as [_ H]; apply H. Qed.

Lemma events_from_scope {A} var b (body : M A) s :
  plain body →
  events_from (SafePyObjectPtr_scope var b body) s
  = events_from body s ++ (if b then [EvSafePyObjectPtrEnd var] else []).
Proof. intros Hb. by destruct (plain_scope var b body Hb) as [_ H]; apply H. Qed.

(** Rewrites the observers of a composite computation into those of its
    parts. *)
Ltac observe :=
  repeat first
    [ rewrite result_from_bind by plain_side
    | rewrite state_from_bind by plain_side
    | rewrite events_from_bind by plain_side
    | rewrite result_from_scope by plain_side
    | rewrite state_from_scope by plain_side
    | rewrite events_from_scope by plain_side
    | rewrite (proj1 (from_ret _ _))
    | rewrite (proj1 (proj2 (from_ret _ _)))
    | rewrite (proj2 (proj2 (from_ret _ _)))
    | rewrite (proj1 (from_step _ _ _))
    | rewrite (proj1 (proj2 (from_step _ _ _)))
    | rewrite (proj2 (proj2 (from_step _ _ _)))
    | rewrite (proj1 (from_py_op _ _ _))
    | rewrite (proj1 (proj2 (from_py_op _ _ _)))
    | rewrite (proj2 (proj2 (from_py_op _ _ _))) ].

Ltac payloads_norm :=
  repeat first
    [ rewrite payloads_app
    | rewrite payloads_nil
    | rewrite payloads_cons_None by reflexivity
    | rewrite (payloads_cons_Some _ _ _ eq_refl)
    | rewrite app_nil_r
    | rewrite app_nil_l ].

(** The positional loop decodes the remaining arguments in sequence order
    and stops at the first that fails. *)
Lemma deserialize_args_events lookup rest :
  ∀ i t s,
    Forall (λ e, loop_event e = true)
      (events_from (deserialize_args lookup rest i t) s)
    ∧ payloads (events_from (deserialize_args lookup rest i t) s)
        `prefix_of` rest
    ∧ (is_value (result_from (deserialize_args lookup rest i t) s) = true →
       payloads (events_from (deserialize_args lookup rest i t) s) = rest).
Proof.
  induction rest as [|p rest IH]; intros i t s; cbn [deserialize_args].
  - observe. repeat split; [constructor | done].
  - observe. destruct (DeserializePyObject p lookup s) as [[v|st] s1];
      cbn [fst snd]; observe.
    + destruct (IH (S i) (PyTuple_SET_ITEM t i v) s1) as (HF & Hpre & Hall).
      payloads_norm. repeat split.
      * by repeat constructor.
      * by apply prefix_cons.
      * intros Hv. f_equal. by apply Hall.
    + payloads_norm. repeat split.
      * by repeat constructor.
      * apply prefix_cons, prefix_nil.
      * discriminate.
Qed.

(** The keyword loop decodes the entries in the order it is handed them and
    stops at the first that fails. *)
Lemma deserialize_kwargs_events lookup rest :
  ∀ d s,
    Forall (λ e, loop_event e = true)
      (events_from (deserialize_kwargs lookup rest d) s)
    ∧ payloads (events_from (deserialize_kwargs lookup rest d) s)
        `prefix_of` rest.*2
    ∧ (is_value (result_from (deserialize_kwargs lookup rest d) s) = true →
       payloads (events_from (deserialize_kwargs lookup rest d) s) = rest.*2).
Proof.
  induction rest as [|[key p] rest IH]; intros d s;
    cbn [deserialize_kwargs fmap list_fmap fst snd].
  - observe. repeat split; [constructor | done].
  - observe. destruct (DeserializePyObject p lookup s) as [[v|st] s1];
      cbn [fst snd]; observe.
    + destruct (IH (PyDict_SetItemString d (c_str key) v s1).1
                  (PyDict_SetItemString d (c_str key) v s1).2)
        as (HF & Hpre & Hall).
      payloads_norm. repeat split.
      * by repeat constructor.
      * by apply prefix_cons.
      * intros Hv. f_equal. by apply Hall.
    + payloads_norm. repeat split.
      * by repeat constructor.
      * apply prefix_cons, prefix_nil.
      * discriminate.
Qed.

Lemma loop_event_section e : loop_event e = true → section_event e = true.
Proof. by destruct e. Qed.

Lemma handle_result_events py_result s :
  Forall (λ e, section_event e = true ∧ payload_of e = None)
    (events_from (handle_result py_result) s).
Proof.
  unfold handle_result, PythonExceptionErrorCode_op.
  destruct py_result as [obj|].
  - observe. destruct (ok _); observe; by repeat constructor.
  - observe. cbn [fst snd]. destruct (FetchPendingException s).1; observe;
      by repeat constructor.
Qed.

(** What [Call] returns when the callable raised: the classified code with
    the prefixed text, or [Internal] when no text could be fetched. *)
Lemma handle_result_raised s :
  result_from (handle_result None) s
  = match (FetchPendingException s).1 with
    | Some exception =>
        Error (mkStatus (PythonExceptionErrorCode (PyErr_Occurred s))
                 (error_prefix +:+ ":" +:+ newline +:+ exception))
    | None => Error (InternalError (error_prefix +:+ no_message_suffix))
    end.
Proof.
  unfold handle_result, PythonExceptionErrorCode_op. observe. cbn [fst snd].
  destruct (FetchPendingException s).1; by observe.
Qed.

Lemma payloads_None evs :
  Forall (λ e, section_event e = true ∧ payload_of e = None) evs →
  payloads evs = [].
Proof.
  induction 1 as [|e evs [_ He] _ IH]; [done|].
  by rewrite payloads_cons_None.
Qed.

(** The body of [Call] under the guard, in terms of its two loops. *)
Lemma Call_with_gil_outcome py_func arguments lookup s :
  result_from (Call_with_gil py_func arguments lookup) s
  = match decode_outcome lookup arguments s with
    | (Error st, _) => Error st
    | (Value (py_args, py_kwargs), s1) =>
        result_from
          (handle_result (PyObject_Call py_func py_args py_kwargs s1).1)
          (PyObject_Call py_func py_args py_kwargs s1).2
    end.
Proof.
  unfold Call_with_gil, decode_outcome. observe. cbv zeta.
  destruct (result_from (deserialize_args _ _ _ _) s) as [pa|st]; [|by observe].
  observe.
  destruct (result_from (deserialize_kwargs _ _ _) _) as [pk|st]; by observe.
Qed.

Ltac Forall_norm :=
  repeat first
    [ rewrite Forall_app
    | rewrite Forall_cons
    | rewrite Forall_nil ].

Lemma Call_with_gil_events py_func arguments lookup s :
  Forall (λ e, section_event e = true)
    (events_from (Call_with_gil py_func arguments lookup) s)
  ∧ payloads (events_from (Call_with_gil py_func arguments lookup) s)
      `prefix_of` decode_order arguments
  ∧ (EvPyObject_Call py_func
       ∈ events_from (Call_with_gil py_func arguments lookup) s →
     payloads (events_from (Call_with_gil py_func arguments lookup) s)
     = decode_order arguments).
Proof.
  unfold Call_with_gil, decode_order. cbv zeta. observe.
  set (n := length (args arguments)).
  destruct (deserialize_args_events lookup (args arguments) 0 (PyTuple_New n) s)
    as (HFa & Hpa & Hfa).
  set (m1 := deserialize_args lookup (args arguments) 0 (PyTuple_New n)) in *.
  assert (HFa' : Forall (λ e, section_event e = true) (events_from m1 s)).
  { eapply Forall_impl; [exact HFa|]. apply loop_event_section. }
  assert (Hno_a : EvPyObject_Call py_func ∉ events_from m1 s).
  { intros Hin. rewrite Forall_forall in HFa. by apply HFa in Hin. }
  destruct (result_from m1 s) as [pa|st] eqn:Ea.
  - observe.
    destruct (deserialize_kwargs_events lookup (kwargs_iteration arguments)
                PyDict_New (state_from m1 s)) as (HFk & Hpk & Hfk).
    set (m2 := deserialize_kwargs lookup (kwargs_iteration arguments)
                 PyDict_New) in *.
    set (s1 := state_from m1 s) in *.
    assert (HFk' : Forall (λ e, section_event e = true) (events_from m2 s1)).
    { eapply Forall_impl; [exact HFk|]. apply loop_event_section. }
    assert (Hno_k : EvPyObject_Call py_func ∉ events_from m2 s1).
    { intros Hin. rewrite Forall_forall in HFk. by apply HFk in Hin. }
    specialize (Hfa eq_refl).
    destruct (result_from m2 s1) as [pk|st] eqn:Ek.
    + observe. specialize (Hfk eq_refl).
      set (r := (PyObject_Call py_func pa pk (state_from m2 s1)).1).
      set (s2 := (PyObject_Call py_func pa pk (state_from m2 s1)).2).
      pose proof (handle_result_events r s2) as HFh.
      assert (Hsec : Forall (λ e, section_event e = true)
                       (events_from (handle_result r) s2)).
      { eapply Forall_impl; [exact HFh|]. by intros e [? _]. }
      pose proof (payloads_None _ HFh) as Hnone.
      assert (Hend : ∀ b : bool,
                payloads (if b then [EvSafePyObjectPtrEnd "py_result"] else [])
                = []) by (by intros []).
      assert (Hends : ∀ b : bool,
                Forall (λ e, section_event e = true)
                  (if b then [EvSafePyObjectPtrEnd "py_result"] else []))
        by (intros []; by repeat constructor).
      payloads_norm. rewrite Hfa, Hfk, Hnone, Hend. payloads_norm.
      repeat split; [|done].
      Forall_norm. repeat split; done.
    + observe. payloads_norm. rewrite Hfa. repeat split.
      * Forall_norm. repeat split; done.
      * by apply prefix_app.
      * intros Hin. exfalso.
        repeat first [ rewrite elem_of_cons in Hin | rewrite elem_of_app in Hin
                     | rewrite elem_of_nil in Hin ].
        intuition congruence.
  - observe. payloads_norm. repeat split.
    + Forall_norm. repeat split; done.
    + by apply prefix_app_r.
    + intros Hin. exfalso.
      repeat first [ rewrite elem_of_cons in Hin | rewrite elem_of_app in Hin
                   | rewrite elem_of_nil in Hin ].
      intuition congruence.
Qed.

(** ** Call *)

Lemma gil_scoped_acquire_plain {A} (body : M A) w :
  plain body →
  gil_scoped_acquire body w
  = (result_from body (py w),
     mkWorld (gil w) (state_from body (py w))
       (log w ++ (EvGilScopedAcquire, gil w)
              :: stamp true (events_from body (py w))
              ++ [(EvGilScopedAcquireEnd, true)])).
Proof.
  intros Hb. unfold gil_scoped_acquire. rewrite (Hb _). cbn [gil py log].
  f_equal. f_equal.
  - by destruct (gil w).
  - by rewrite <- !app_assoc.
Qed.

(** [Call] in one equation: before the guard, and under it. *)
Lemma Call_unfold py_func endpoint arguments w :
  Call py_func endpoint arguments w
  = match CreateTensorLookup arguments with
    | Error st =>
        (Error st,
         mkWorld (gil w) (py w) (log w ++ [(EvCreateTensorLookup, gil w)]))
    | Value lookup =>
        let body := Call_with_gil py_func arguments lookup in
        (result_from body (py w),
         mkWorld (gil w) (state_from body (py w))
           (log w ++ (EvCreateTensorLookup, gil w)
                  :: (EvGilScopedAcquire, gil w)
                  :: stamp true (events_from body (py w))
                  ++ [(EvGilScopedAcquireEnd, true)]))
    end.
Proof.
  unfold Call, bind, step, emit.
  destruct (CreateTensorLookup arguments) as [lookup|st]; [|done].
  rewrite gil_scoped_acquire_plain by auto. cbn [gil py log].
  by rewrite <- app_assoc.
Qed.

Lemma stamp_section evs :
  Forall (λ e, section_event e = true) evs →
  Forall (λ eb : Event * bool, eb.2 = true ∧ section_event eb.1 = true)
    (stamp true evs).
Proof. unfold stamp. induction 1; simpl; constructor; auto. Qed.

(** C2. In [Call] the tensor lookup is built before the GIL guard is
    entered; when building it fails [Call] returns without ever entering
    the guard; otherwise everything else [Call] does (argument decoding, the
    invocation, the handling of the result or of the error, and the dropping
    of the references) happens between the guard's begin and its end, with
    the GIL held; the guard's end is the last thing [Call] does on every
    path, and it leaves the thread's hold on the GIL as [Call] found it. *)
Theorem Call_gil_discipline py_func endpoint arguments w :
  ∃ inside,
    Forall (λ eb, eb.2 = true ∧ section_event eb.1 = true) inside
    ∧ log (Call py_func endpoint arguments w).2
      = log w ++ new_events (Call py_func endpoint arguments) w
    ∧ new_events (Call py_func endpoint arguments) w
      = (EvCreateTensorLookup, gil w)
        :: match CreateTensorLookup arguments with
           | Error _ => []
           | Value _ =>
               (EvGilScopedAcquire, gil w)
               :: inside ++ [(EvGilScopedAcquireEnd, true)]
           end
    ∧ runtime_ops_hold_gil (new_events (Call py_func endpoint arguments) w)
    ∧ gil (Call py_func endpoint arguments w).2 = gil w.
Proof.
  pose proof (Call_unfold py_func endpoint arguments w) as HC.
  destruct (CreateTensorLookup arguments) as [lookup|st].
  - cbv zeta in HC.
    set (body := Call_with_gil py_func arguments lookup) in *.
    destruct (Call_with_gil_events py_func arguments lookup (py w))
      as (Hsec & _ & _). fold body in Hsec.
    exists (stamp true (events_from body (py w))).
    assert (Hlog : log (Call py_func endpoint arguments w).2
              = log w ++ (EvCreateTensorLookup, gil w)
                      :: (EvGilScopedAcquire, gil w)
                      :: stamp true (events_from body (py w))
                      ++ [(EvGilScopedAcquireEnd, true)]) by (by rewrite HC).
    rewrite (new_events_app _ _ _ Hlog).
    repeat split.
    + by apply stamp_section.
    + done.
    + constructor; [done|]. constructor; [done|].
      rewrite Forall_app. split; [|by repeat constructor].
      eapply Forall_impl; [apply stamp_section, Hsec|]. by intros eb [? _].
    + by rewrite HC.
  - exists [].
    assert (Hlog : log (Call py_func endpoint arguments w).2
              = log w ++ [(EvCreateTensorLookup, gil w)]) by (by rewrite HC).
    rewrite (new_events_app _ _ _ Hlog).
    repeat split; [constructor | done | by repeat constructor | by rewrite HC].
Qed.

(** What [Call] appends to the log, and its payloads. *)
Lemma Call_new_events py_func endpoint arguments w :
  new_events (Call py_func endpoint arguments) w
  = (EvCreateTensorLookup, gil w)
    :: match CreateTensorLookup arguments with
       | Error _ => []
       | Value lookup =>
           (EvGilScopedAcquire, gil w)
           :: stamp true
                (events_from (Call_with_gil py_func arguments lookup) (py w))
           ++ [(EvGilScopedAcquireEnd, true)]
       end.
Proof.
  apply new_events_app. rewrite Call_unfold.
  by destruct (CreateTensorLookup arguments).
Qed.



(** Whatever the enumeration of the map: two requests with the same two
    keyword entries received in opposite orders are decoded alike, so they
    are not both decoded in their order of receipt. *)
Lemma Call_cannot_follow_receipt_order py_func endpoint w k1 k2 p q :
  k1 ≠ k2 → p ≠ q →
  let one := mkWire [] [(k1, p); (k2, q)] in
  let other := mkWire [] [(k2, q); (k1, p)] in
  ¬ (decoded (new_events (Call py_func endpoint (ParseCallArguments one)) w)
       = receipt_order one
     ∧ decoded (new_events (Call py_func endpoint (ParseCallArguments other))
                  w)
       = receipt_order other).
Proof.
  intros Hk Hpq one other [H1 H2].
  assert (Heq : ParseCallArguments one = ParseCallArguments other).
  { unfold ParseCallArguments. cbn [wire_args wire_kwargs foldl fst snd one other].
    f_equal. by apply insert_insert_ne. }
  rewrite Heq, H2 in H1. unfold receipt_order in H1.
  cbn in H1. congruence.
Qed.

(** How [Call] ends once both loops have run and the callable has raised. *)
Lemma Call_raised py_func endpoint arguments w lookup py_args py_kwargs s s1 :
  CreateTensorLookup arguments = Value lookup →
  decode_outcome lookup arguments (py w) = (Value (py_args, py_kwargs), s) →
  PyObject_Call py_func py_args py_kwargs s = (None, s1) →
  (Call py_func endpoint arguments w).1
  = match (FetchPendingException s1).1 with
    | Some exception =>
        Error (mkStatus (PythonExceptionErrorCode (PyErr_Occurred s1))
                 (error_prefix +:+ ":" +:+ newline +:+ exception))
    | None => Error (InternalError (error_prefix +:+ no_message_suffix))
    end.
Proof.
  intros Hlk Hdec Hcall. rewrite Call_unfold, Hlk. cbv zeta. cbn [fst].
  rewrite Call_with_gil_outcome, Hdec, Hcall. cbn [fst snd].
  apply handle_result_raised.
Qed.

(** C5. When the arguments were decoded, the callable raised, and no text
    can be fetched for the pending exception, [Call] returns the status
    [Internal] with the fixed message, whatever code the exception would
    have been classified to. *)
Theorem Call_text_unavailable py_func endpoint arguments w lookup
    py_args py_kwargs s s1 :
  CreateTensorLookup arguments = Value lookup →
  decode_outcome lookup arguments (py w) = (Value (py_args, py_kwargs), s) →
  PyObject_Call py_func py_args py_kwargs s = (None, s1) →
  (FetchPendingException s1).1 = None →
  (Call py_func endpoint arguments w).1
  = Error (mkStatus kInternal
             "Python exception was raised on the server but the exception message could not be caught.   ").
Proof.
  intros Hlk Hdec Hcall Hfetch.
  rewrite (Call_raised _ _ _ _ _ _ _ _ _ Hlk Hdec Hcall), Hfetch.
  reflexivity.
Qed.

Lemma contains_suffix pre text : contains (pre +:+ text) text.
Proof.
  exists pre, EmptyString. f_equal.
  induction text as [|c text IH]; [done|].
  change (String c text = String c (text +:+ EmptyString)). by rewrite <- IH.
Qed.

(** C6. [Call] returns a value or a status, never both and never neither.
    When the callable raised, it returns a status that is not OK: where the
    text of the exception can be fetched, the status carries the code the
    exception is classified to and a message that ends with that text;
    where it cannot, the status is [Internal]. *)
Theorem Call_outcome py_func endpoint arguments w :
  is_value (Call py_func endpoint arguments w).1
    = negb (is_error (Call py_func endpoint arguments w).1)
  ∧ ∀ lookup py_args py_kwargs s s1,
      CreateTensorLookup arguments = Value lookup →
      decode_outcome lookup arguments (py w)
        = (Value (py_args, py_kwargs), s) →
      PyObject_Call py_func py_args py_kwargs s = (None, s1) →
      ∃ st, (Call py_func endpoint arguments w).1 = Error st
            ∧ is_value (Call py_func endpoint arguments w).1 = false
            ∧ code st ≠ kOk
            ∧ match (FetchPendingException s1).1 with
              | Some exception =>
                  code st = PythonExceptionErrorCode (PyErr_Occurred s1)
                  ∧ message st
                    = error_prefix +:+ ":" +:+ newline +:+ exception
                  ∧ contains (message st) exception
              | None => code st = kInternal
              end.
Proof.
  split; [by destruct (Call _ _ _ _).1|].
  intros lookup py_args py_kwargs s s1 Hlk Hdec Hcall.
  rewrite (Call_raised _ _ _ _ _ _ _ _ _ Hlk Hdec Hcall).
  destruct (FetchPendingException s1).1 as [exception|].
  - eexists. split; [reflexivity|]. cbn [code message is_value].
    repeat split.
    + apply PythonExceptionErrorCode_not_ok.
    + change (error_prefix +:+ ":" +:+ newline +:+ exception)
        with ((error_prefix +:+ ":" +:+ newline) +:+ exception).
      apply contains_suffix.
  - eexists. split; [reflexivity|]. by cbn.
Qed.

(** ** What the callable receives *)

Set Warnings "-clear-no-such-hyp".

(** The positional loop fills the slots from [i] on, one per remaining
    argument, each with an object [DeserializePyObject] returned for that
    argument, and leaves the other slots alone. *)
Lemma deserialize_args_tuple lookup rest :
  ∀ i t s py_args,
    result_from (deserialize_args lookup rest i t) s = Value py_args →
    i + length rest ≤ length t →
    length py_args = length t
    ∧ (∀ j, j < i → py_args !! j = t !! j)
    ∧ (∀ j, i + length rest ≤ j → py_args !! j = t !! j)
    ∧ (∀ k p, rest !! k = Some p →
         ∃ o s', py_args !! (i + k) = Some (Some o)
                 ∧ (DeserializePyObject p lookup s').1 = Value o).
Proof.
  induction rest as [|p rest IH]; intros i t s py_args;
    cbn [deserialize_args length]; observe.
  - intros [= <-] _. by repeat split.
  - destruct (DeserializePyObject p lookup s) as [[v|st] s1] eqn:Hd;
      cbn [fst snd]; observe; [|discriminate].
    intros Hres Hlen.
    destruct (IH (S i) (PyTuple_SET_ITEM t i v) s1 py_args Hres)
      as (Hl & Hlt & Hge & Hfill).
    { unfold PyTuple_SET_ITEM. rewrite length_insert. lia. }
    unfold PyTuple_SET_ITEM in *. rewrite length_insert in Hl.
    split; [exact Hl|]. split; [|split].
    + intros j Hj. rewrite Hlt by lia. apply list_lookup_insert_ne. lia.
    + intros j Hj. rewrite Hge by lia. apply list_lookup_insert_ne. lia.
    + intros [|k] q Hk.
      * injection Hk as <-. exists v, s. split; [|by rewrite Hd].
        rewrite Nat.add_0_r, Hlt by lia. apply list_lookup_insert_eq. lia.
      * destruct (Hfill k q Hk) as (o & s' & Ho & Hdec).
        exists o, s'. split; [|done]. by rewrite <- Nat.add_succ_comm.
Qed.







(** A key that is not UTF-8 leaves the dict as it was and the interpreter
    with what [PyUnicode_FromString] leaves pending. *)
Lemma PyDict_SetItemString_fails (d : list (string * PyObject)) key v s :
  valid_utf8 key = false →
  PyDict_SetItemString d key v s = (d, PyUnicode_FromString_fail key s).
Proof. unfold PyDict_SetItemString. by intros ->. Qed.


Lemma decode_outcome_Value lookup arguments s py_args py_kwargs s1 :
  decode_outcome lookup arguments s = (Value (py_args, py_kwargs), s1) →
  result_from (deserialize_args lookup (args arguments) 0
                 (PyTuple_New (length (args arguments)))) s
  = Value py_args
  ∧ result_from (deserialize_kwargs lookup (kwargs_iteration arguments)
                   PyDict_New)
      (state_from (deserialize_args lookup (args arguments) 0
                     (PyTuple_New (length (args arguments)))) s)
    = Value py_kwargs.
Proof.
  unfold decode_outcome. cbv zeta.
  destruct (result_from (deserialize_args _ _ _ _) s) as [pa|st];
    [|discriminate].
  destruct (result_from (deserialize_kwargs _ _ _) _) as [pk|st];
    [|discriminate].
  by intros [= -> -> _].
Qed.



(** When [PyObject_Call] is reached, the tuple it is handed has one slot per
    positional argument, in order, and every slot is filled with an object
    that [DeserializePyObject] returned for the argument at that index: no
    slot of [PyTuple_New] is left NULL. *)
Theorem Call_tuple_filled lookup arguments s py_args py_kwargs s1 :
  decode_outcome lookup arguments s = (Value (py_args, py_kwargs), s1) →
  length py_args = length (args arguments)
  ∧ (None ∉ py_args)
  ∧ ∀ k p, args arguments !! k = Some p →
      ∃ o s', py_args !! k = Some (Some o)
              ∧ (DeserializePyObject p lookup s').1 = Value o.
Proof.
  intros Hout. destruct (decode_outcome_Value _ _ _ _ _ _ Hout) as [Ha _].
  destruct (deserialize_args_tuple lookup (args arguments) 0 _ s py_args Ha)
    as (Hlen & _ & _ & Hfill).
  { unfold PyTuple_New. rewrite length_replicate. lia. }
  unfold PyTuple_New in Hlen. rewrite length_replicate in Hlen.
  split; [exact Hlen|]. split; [|exact Hfill].
  intros Hin. apply list_elem_of_lookup in Hin as [k Hk].
  assert (Hlt : k < length (args arguments)).
  { rewrite <- Hlen. by apply lookup_lt_Some in Hk. }
  destruct (lookup_lt_is_Some_2 _ _ Hlt) as [p Hp].
  destruct (Hfill k p Hp) as (o & _ & Ho & _). cbn in Ho. congruence.
Qed.


(** ** The paths through [Call] *)

Lemma handle_result_returned obj s :
  result_from (handle_result (Some obj)) s
  = if ok (SerializePyObject obj s).1.1
    then Value (mkCallResult (SerializePyObject obj s).1.2)
    else Error (SerializePyObject obj s).1.1.
Proof.
  unfold handle_result. observe.
  destruct (ok (SerializePyObject obj s).1.1); by observe.
Qed.

Lemma handle_result_trace py_result s :
  events_from (handle_result py_result) s
  = match py_result with
    | Some _ => [EvSerializePyObject]
    | None =>
        EvPythonExceptionErrorCode :: EvFetchPendingException
        :: match (FetchPendingException s).1 with
           | Some exception =>
               [EvLog (error_prefix +:+ ":" +:+ newline +:+ exception)]
           | None => []
           end
    end.
Proof.
  unfold handle_result, PythonExceptionErrorCode_op.
  destruct py_result as [obj|]; observe.
  - destruct (ok _); by observe.
  - cbn [fst snd]. destruct (FetchPendingException s).1; by observe.
Qed.

(** The events of the body of [Call], path by path. *)
Lemma Call_with_gil_trace py_func arguments lookup s :
  events_from (Call_with_gil py_func arguments lookup) s
  = let m1 := deserialize_args lookup (args arguments) 0
                (PyTuple_New (length (args arguments))) in
    let m2 := deserialize_kwargs lookup (kwargs_iteration arguments)
                PyDict_New in
    EvPyTuple_New (length (args arguments))
    :: events_from m1 s
    ++ match result_from m1 s with
       | Error _ => []
       | Value py_args =>
           EvPyDict_New
           :: events_from m2 (state_from m1 s)
           ++ match result_from m2 (state_from m1 s) with
              | Error _ => []
              | Value py_kwargs =>
                  let c := PyObject_Call py_func py_args py_kwargs
                             (state_from m2 (state_from m1 s)) in
                  EvPyObject_Call py_func
                  :: events_from (handle_result c.1) c.2
                  ++ (if bool_decide (is_Some c.1)
                      then [EvSafePyObjectPtrEnd "py_result"] else [])
              end
           ++ [EvSafePyObjectPtrEnd "py_kwargs"]
       end
    ++ [EvSafePyObjectPtrEnd "py_args"].
Proof.
  unfold Call_with_gil. cbv zeta. observe.
  destruct (result_from (deserialize_args _ _ _ _) s) as [pa|st]; observe.
  - destruct (result_from (deserialize_kwargs _ _ _) _) as [pk|st]; observe;
      repeat first [ rewrite app_nil_r | rewrite <- app_assoc
                   | progress cbn [app] ]; reflexivity.
  - repeat first [ rewrite app_nil_r | rewrite <- app_assoc
                 | progress cbn [app] ]; reflexivity.
Qed.

Lemma loop_events_no_call (evs : list Event) py_func :
  Forall (λ e, loop_event e = true) evs → EvPyObject_Call py_func ∉ evs.
Proof. rewrite Forall_forall. intros H Hin. by apply H in Hin. Qed.

Lemma loop_events_no_log (evs : list Event) msg :
  Forall (λ e, loop_event e = true) evs → EvLog msg ∉ evs.
Proof. rewrite Forall_forall. intros H Hin. by apply H in Hin. Qed.

Ltac elem_of_norm H :=
  repeat first
    [ rewrite elem_of_cons in H | rewrite elem_of_app in H
    | rewrite elem_of_nil in H ].

(** [Call] returns a value exactly when the tensor lookup was built, every
    argument was decoded, the callable returned an object and that object
    was serialized with an OK status; the value is then the payload
    [SerializePyObject] produced. *)
Theorem Call_returns_value py_func endpoint arguments w r :
  (Call py_func endpoint arguments w).1 = Value r
  ↔ ∃ lookup py_args py_kwargs s obj s1,
      CreateTensorLookup arguments = Value lookup
      ∧ decode_outcome lookup arguments (py w)
        = (Value (py_args, py_kwargs), s)
      ∧ PyObject_Call py_func py_args py_kwargs s = (Some obj, s1)
      ∧ ok (SerializePyObject obj s1).1.1 = true
      ∧ r = mkCallResult (SerializePyObject obj s1).1.2.
Proof.
  rewrite Call_unfold. split.
  - destruct (CreateTensorLookup arguments) as [lookup|st]; [|discriminate].
    cbv zeta. cbn [fst]. rewrite Call_with_gil_outcome.
    destruct (decode_outcome lookup arguments (py w)) as [[[pa pk]|st] s] eqn:Hd;
      [|discriminate].
    destruct (PyObject_Call py_func pa pk s) as [[obj|] s1] eqn:Hc;
      cbn [fst snd].
    + rewrite handle_result_returned.
      destruct (ok (SerializePyObject obj s1).1.1) eqn:Hok; [|discriminate].
      intros [= <-]. by exists lookup, pa, pk, s, obj, s1.
    + rewrite handle_result_raised.
      by destruct (FetchPendingException s1).1.
  - intros (lookup & pa & pk & s & obj & s1 & -> & Hd & Hc & Hok & ->).
    cbv zeta. cbn [fst]. rewrite Call_with_gil_outcome, Hd, Hc. cbn [fst snd].
    by rewrite handle_result_returned, Hok.
Qed.


Ltac split_cases :=
  repeat match goal with
         | H : _ ∨ _ |- _ => destruct H
         | H : False |- _ => destruct H
         end.

(** [Call] writes to the log exactly when the callable raised and the text
    of the exception was fetched: on that path, and on no other, it logs the
    prefix, a colon, a newline and the text, once decoding has succeeded for
    every argument; and what it logs is the message of the status it
    returns, whose code is not Ok. *)
Theorem Call_logs_what_it_returns py_func endpoint arguments w msg :
  EvLog msg ∈ (new_events (Call py_func endpoint arguments) w).*1
  ↔ ∃ lookup py_args py_kwargs s s1 exception,
      CreateTensorLookup arguments = Value lookup
      ∧ decode_outcome lookup arguments (py w)
        = (Value (py_args, py_kwargs), s)
      ∧ PyObject_Call py_func py_args py_kwargs s = (None, s1)
      ∧ (FetchPendingException s1).1 = Some exception
      ∧ msg = error_prefix +:+ ":" +:+ newline +:+ exception
      ∧ (Call py_func endpoint arguments w).1
        = Error (mkStatus (PythonExceptionErrorCode (PyErr_Occurred s1)) msg)
      ∧ PythonExceptionErrorCode (PyErr_Occurred s1) ≠ kOk.
Proof.
  split.
  - rewrite Call_new_events, Call_unfold.
    destruct (CreateTensorLookup arguments) as [lookup|st0] eqn:Hlk.
    2: { cbn [fmap list_fmap fst]. intros Hin. elem_of_norm Hin.
         split_cases; discriminate. }
    rewrite !fmap_cons, fmap_app, stamp_fst. cbn [fst fmap list_fmap].
    rewrite Call_with_gil_trace. cbv zeta. rewrite Call_with_gil_outcome.
    unfold decode_outcome. cbv zeta.
    destruct (deserialize_args_events lookup (args arguments) 0
                (PyTuple_New (length (args arguments))) (py w)) as (HFa & _).
    destruct (deserialize_kwargs_events lookup (kwargs_iteration arguments)
                PyDict_New
                (state_from (deserialize_args lookup (args arguments) 0
                   (PyTuple_New (length (args arguments)))) (py w)))
      as (HFk & _).
    rewrite Forall_forall in HFa, HFk.
    destruct (result_from (deserialize_args _ _ _ _) (py w)) as [pa|st1]
      eqn:Ha.
    + destruct (result_from (deserialize_kwargs _ _ _) _) as [pk|st2] eqn:Hk.
      * destruct (PyObject_Call py_func pa pk _) as [[obj|] s1] eqn:Hc;
          cbn [fst snd]; rewrite handle_result_trace;
          [rewrite bool_decide_true by eauto
          |rewrite bool_decide_false by (by intros [? ?])].
        -- intros Hin. elem_of_norm Hin. split_cases; try discriminate;
             match goal with
             | H : _ ∈ _ |- _ =>
                 first [apply HFa in H | apply HFk in H]; discriminate
             end.
        -- rewrite handle_result_raised.
           destruct (FetchPendingException s1).1 as [exception|] eqn:Hf;
             intros Hin; elem_of_norm Hin; split_cases; try discriminate;
             try match goal with
                 | H : _ ∈ _ |- _ =>
                     first [apply HFa in H | apply HFk in H]; discriminate
                 end.
           match goal with H : EvLog _ = EvLog _ |- _ => injection H as -> end.
           eexists lookup, pa, pk, _, s1, exception.
           split; [reflexivity|]. rewrite Ha, Hk.
           split; [reflexivity|].
           split; [exact Hc|]. split; [exact Hf|].
           split; [reflexivity|]. split; [reflexivity|].
           apply PythonExceptionErrorCode_not_ok.
      * intros Hin. elem_of_norm Hin. split_cases; try discriminate;
          match goal with
          | H : _ ∈ _ |- _ =>
              first [apply HFa in H | apply HFk in H]; discriminate
          end.
    + intros Hin. elem_of_norm Hin. split_cases; try discriminate;
        match goal with
        | H : _ ∈ _ |- _ => apply HFa in H; discriminate
        end.
  - intros (lookup & pa & pk & s & s1 & exception
            & Hlk & Hd & Hc & Hf & -> & _).
    destruct (decode_outcome_Value _ _ _ _ _ _ Hd) as [Ha Hk].
    assert (Hs : s = state_from
                       (deserialize_kwargs lookup (kwargs_iteration arguments)
                          PyDict_New)
                       (state_from
                          (deserialize_args lookup (args arguments) 0
                             (PyTuple_New (length (args arguments))))
                          (py w))).
    { revert Hd. unfold decode_outcome. cbv zeta. rewrite Ha, Hk.
      by intros [= <-]. }
    rewrite Call_new_events, Hlk.
    rewrite !fmap_cons, fmap_app, stamp_fst. cbn [fst fmap list_fmap].
    rewrite Call_with_gil_trace. cbv zeta. rewrite Ha, Hk, <- Hs, Hc.
    cbn [fst snd]. rewrite handle_result_trace, Hf.
    repeat first [ rewrite elem_of_cons | rewrite elem_of_app ].
    intuition auto.
Qed.

(** [Call] does the same from a thread that holds the GIL as from one that
    does not: the same result, the same effect on the interpreter and the
    same operations in the same order. *)
Theorem Call_same_from_any_thread py_func endpoint arguments w w' :
  py w' = py w →
  (Call py_func endpoint arguments w').1
  = (Call py_func endpoint arguments w).1
  ∧ py (Call py_func endpoint arguments w').2
    = py (Call py_func endpoint arguments w).2
  ∧ (new_events (Call py_func endpoint arguments) w').*1
    = (new_events (Call py_func endpoint arguments) w).*1.
Proof.
  intros Hpy. rewrite !Call_new_events, !Call_unfold, Hpy.
  destruct (CreateTensorLookup arguments) as [lookup|st]; [|done].
  cbv zeta. cbn [fst snd py]. split; [done|]. split; [done|].
  by rewrite !fmap_cons, !fmap_app.
Qed.

End Plain.

(** ** The handler's lifetime, the Router and the Python module *)

Section RouterFacts.
Context {Payload : Type} {R : PyRuntime Payload}.

Lemma PyCallHandler_dtor_unfold py_func w :
  PyCallHandler_dtor py_func w
  = (tt,
     mkWorld (gil w) (Py_DECREF py_func (py w))
       (log w ++ [(EvGilScopedAcquire, gil w); (EvPy_DECREF py_func, true);
                  (EvGilScopedAcquireEnd, true)])).
Proof.
  unfold PyCallHandler_dtor, gil_scoped_acquire, py_op. cbn [gil py log].
  rewrite <- !app_assoc. by destruct (gil w).
Qed.

(** C3, as the code has it. Building a handler takes one reference to the
    callable and destroying it drops one. The destructor enters the GIL guard
    itself, so the reference is always dropped with the GIL held. The
    constructor enters no guard: the reference is taken with the GIL held
    exactly when the constructing thread holds it already. *)
Theorem PyCallHandler_lifetime py_func w :
  BuildPyCallHandler py_func w
  = (PyCallHandler py_func,
     mkWorld (gil w) (Py_INCREF py_func (py w))
       (log w ++ [(EvPy_INCREF py_func, gil w)]))
  ∧ handler_dtor (PyCallHandler py_func) w
    = (tt,
       mkWorld (gil w) (Py_DECREF py_func (py w))
         (log w ++ [(EvGilScopedAcquire, gil w); (EvPy_DECREF py_func, true);
                    (EvGilScopedAcquireEnd, true)]))
  ∧ runtime_ops_hold_gil (new_events (handler_dtor (PyCallHandler py_func)) w)
  ∧ (runtime_ops_hold_gil (new_events (BuildPyCallHandler py_func) w)
     ↔ gil w = true).
Proof.
  assert (Hc : BuildPyCallHandler py_func w
    = (PyCallHandler py_func,
       mkWorld (gil w) (Py_INCREF py_func (py w))
         (log w ++ [(EvPy_INCREF py_func, gil w)]))) by reflexivity.
  assert (Hd : handler_dtor (PyCallHandler py_func) w
    = (tt,
       mkWorld (gil w) (Py_DECREF py_func (py w))
         (log w ++ [(EvGilScopedAcquire, gil w); (EvPy_DECREF py_func, true);
                    (EvGilScopedAcquireEnd, true)]))).
  { apply PyCallHandler_dtor_unfold. }
  split; [exact Hc|]. split; [exact Hd|]. split.
  - rewrite (new_events_app _ _ _ (f_equal (λ r, log r.2) Hd)).
    unfold runtime_ops_hold_gil. repeat constructor; done.
  - rewrite (new_events_app _ _ _ (f_equal (λ r, log r.2) Hc)).
    unfold runtime_ops_hold_gil. rewrite Forall_singleton. cbn.
    split; [by intros H; apply H | done].
Qed.

(** C7. [Bind] on a registered name returns [AlreadyExists] and leaves the
    registry as it was, the original handler still bound; on a free name it
    returns [Ok] and the registry maps the name to the new handler, every
    other name as before. Binding a name twice in a row: the second [Bind]
    returns [AlreadyExists] and changes nothing. *)
Theorem Router_Bind_contract name handler handler2 registry w :
  (Router_Bind name handler registry w).2 = w
  ∧ match registry !! name with
    | Some bound =>
        code (Router_Bind name handler registry w).1.1 = kAlreadyExists
        ∧ (Router_Bind name handler registry w).1.2 = registry
        ∧ (Router_Bind name handler registry w).1.2 !! name = Some bound
    | None =>
        (Router_Bind name handler registry w).1.1 = OkStatus
        ∧ (Router_Bind name handler registry w).1.2 !! name = Some handler
        ∧ ∀ other, other ≠ name →
            (Router_Bind name handler registry w).1.2 !! other
            = registry !! other
    end
  ∧ code (Router_Bind name handler2
            (Router_Bind name handler registry w).1.2 w).1.1 = kAlreadyExists
  ∧ (Router_Bind name handler2
       (Router_Bind name handler registry w).1.2 w).1.2
    = (Router_Bind name handler registry w).1.2.
Proof.
  assert (HB : ∀ h (reg : gmap string HandlerInterface),
            Router_Bind name h reg w
            = match reg !! name with
              | Some _ => ((mkStatus kAlreadyExists name, reg), w)
              | None => ((OkStatus, <[name := h]> reg), w)
              end).
  { intros h reg. unfold Router_Bind, ret. by destruct (reg !! name). }
  rewrite (HB handler registry).
  destruct (registry !! name) as [bound|] eqn:E; cbn [fst snd]; rewrite HB.
  - rewrite E. by cbn.
  - rewrite lookup_insert_eq. cbn. repeat split; try done.
    intros other Hne. by rewrite lookup_insert_ne.
Qed.

(** C8. [Dispatch] on an unregistered name returns [NotFound], runs nothing
    (the world, log included, is as before) and leaves the registry as it
    was; on a registered name it is the bound handler's [Call], outcome and
    effects unchanged, the registry as it was. *)
Theorem Router_Dispatch_contract name arguments registry w :
  (Router_Dispatch name arguments registry w).1.2 = registry
  ∧ match registry !! name with
    | None =>
        (∃ st, (Router_Dispatch name arguments registry w).1.1 = Error st
               ∧ code st = kNotFound)
        ∧ (Router_Dispatch name arguments registry w).2 = w
    | Some handler =>
        (Router_Dispatch name arguments registry w).1.1
        = (handler_Call handler name arguments w).1
        ∧ (Router_Dispatch name arguments registry w).2
          = (handler_Call handler name arguments w).2
    end.
Proof.
  unfold Router_Dispatch, bind, ret.
  destruct (registry !! name) as [handler|]; cbn [fst snd].
  - by destruct (handler_Call handler name arguments w).
  - split; [done|]. split; [|done]. by eexists.
Qed.

Lemma find_method_Router_class name :
  find_method Router_class name
  = if bool_decide ("__init__" = name)
    then Some (mkDef "__init__" Router_init no_call_guard)
    else if bool_decide ("Bind" = name)
    then Some (mkDef "Bind" Router_Bind_ptr no_call_guard)
    else if bool_decide ("Unbind" = name)
    then Some (mkDef "Unbind" Router_Unbind_ptr call_guard_gil_scoped_release)
    else None.
Proof. reflexivity. Qed.

(** C9, as the code has it. The module registers the class [Router] with
    its constructor and the two methods [Bind] and [Unbind], bound to
    [Router::Bind] and [Router::Unbind]; it registers nothing else, so a
    call of [Dispatch] from Python finds no method. *)
Theorem Router_class_methods :
  exposes Router_class ["__init__"; "Bind"; "Unbind"]
  ∧ def_member <$> find_method Router_class "__init__" = Some Router_init
  ∧ def_member <$> find_method Router_class "Bind" = Some Router_Bind_ptr
  ∧ def_member <$> find_method Router_class "Unbind" = Some Router_Unbind_ptr
  ∧ (∀ name, is_Some (find_method Router_class name) →
       name ∈ ["__init__"; "Bind"; "Unbind"])
  ∧ (∀ a registry, py_call_method Router_class "Dispatch" a registry = None).
Proof.
  repeat split.
  - unfold exposes. repeat constructor; by eexists.
  - intros name [d Hd]. rewrite find_method_Router_class in Hd.
    repeat case_bool_decide; subst; try discriminate; set_solver.
Qed.

(** C10. From Python, [Unbind] runs under [gil_scoped_release]: the guard
    gives up the GIL before [Router::Unbind] is entered and takes it back
    after it has returned, whereas [Bind] is [Router::Bind] as it is, run
    with whatever hold on the GIL the caller has. When [Unbind] destroys a
    [PyCallHandler], the destructor therefore finds the GIL free, takes it,
    drops the reference, and gives it back before the call guard ends. *)
Theorem Unbind_releases_gil name handler registry w :
  def_guard <$> find_method Router_class "Unbind"
    = Some call_guard_gil_scoped_release
  ∧ def_guard <$> find_method Router_class "Bind" = Some no_call_guard
  ∧ py_call_method Router_class "Bind" (NameHandlerArgs name handler) registry
    = Some (Router_Bind name handler registry)
  ∧ ∃ m,
      py_call_method Router_class "Unbind" (NameArg name) registry = Some m
      ∧ (let released :=
           mkWorld false (py w) (log w ++ [(EvGilScopedRelease, gil w)]) in
         let r := Router_Unbind name registry released in
         m w = (r.1, mkWorld true (py r.2)
                       (log r.2 ++ [(EvGilScopedReleaseEnd, gil r.2)])))
      ∧ (∀ py_func,
           registry !! name = Some (PyCallHandler py_func) →
           new_events m w
           = [(EvGilScopedRelease, gil w); (EvGilScopedAcquire, false);
              (EvPy_DECREF py_func, true); (EvGilScopedAcquireEnd, true);
              (EvGilScopedReleaseEnd, false)]
           ∧ runtime_ops_hold_gil (new_events m w)
           ∧ gil (m w).2 = true)
      ∧ (registry !! name = None → new_events m w
           = [(EvGilScopedRelease, gil w); (EvGilScopedReleaseEnd, false)]).
Proof.
  split; [done|]. split; [done|]. split; [done|].
  exists (gil_scoped_release (Router_Unbind name registry)).
  split; [done|]. split.
  - cbv zeta. unfold gil_scoped_release.
    by destruct (Router_Unbind name registry _).
  - split.
    + intros py_func Hbound.
      assert (Hlog : log (gil_scoped_release (Router_Unbind name registry) w).2
                = log w ++ [(EvGilScopedRelease, gil w);
                            (EvGilScopedAcquire, false);
                            (EvPy_DECREF py_func, true);
                            (EvGilScopedAcquireEnd, true);
                            (EvGilScopedReleaseEnd, false)]).
      { unfold gil_scoped_release, Router_Unbind. rewrite Hbound.
        unfold bind, ret.
        cbn [handler_dtor PyCallHandler].
        rewrite PyCallHandler_dtor_unfold.
        cbn [fst snd gil py log]. by rewrite <- !app_assoc. }
      rewrite (new_events_app _ _ _ Hlog). split; [done|]. split.
      * unfold runtime_ops_hold_gil. repeat constructor; done.
      * unfold gil_scoped_release.
        by destruct (Router_Unbind name registry _).
    + intros Hfree. apply new_events_app.
      unfold gil_scoped_release, Router_Unbind. rewrite Hfree. unfold ret.
      cbn [fst snd gil py log]. by rewrite <- !app_assoc.
Qed.

End RouterFacts.

(** ** The definitions at work *)

Import Toy.

Example Call_add :
  Call (R := runtime) 0 "add" (request [1; 2] []) server_thread
  = (Value (mkCallResult 3),
     mkWorld false init
       [(EvCreateTensorLookup, false); (EvGilScopedAcquire, false);
        (EvPyTuple_New 2, true); (EvDeserializePyObject 1, true);
        (EvPyTuple_SET_ITEM 0, true); (EvDeserializePyObject 2, true);
        (EvPyTuple_SET_ITEM 1, true); (EvPyDict_New, true);
        (EvPyObject_Call 0, true); (EvSerializePyObject, true);
        (EvSafePyObjectPtrEnd "py_result", true);
        (EvSafePyObjectPtrEnd "py_kwargs", true);
        (EvSafePyObjectPtrEnd "py_args", true);
        (EvGilScopedAcquireEnd, true)]).
Proof. vm_compute. reflexivity. Qed.

(** A positional argument that cannot be decoded: [Call] returns early, and
    still drops [py_args] and leaves the guard. *)
Example Call_decode_failure :
  Call (R := runtime) 0 "add" (request [1; 13; 2] [("k", 4)]) server_thread
  = (Error (mkStatus kInvalidArgument "cannot decode"),
     mkWorld false init
       [(EvCreateTensorLookup, false); (EvGilScopedAcquire, false);
        (EvPyTuple_New 3, true); (EvDeserializePyObject 1, true);
        (EvPyTuple_SET_ITEM 0, true); (EvDeserializePyObject 13, true);
        (EvSafePyObjectPtrEnd "py_args", true);
        (EvGilScopedAcquireEnd, true)]).
Proof. vm_compute. reflexivity. Qed.

(** The class of the exception is read before the exception is fetched and
    cleared. *)
Example Call_two_categories :
  (Call (R := runtime) 3 "fail" (request [] []) server_thread).1
  = Error (mkStatus kInvalidArgument
             ("Python exception was raised on the server:" +:+ newline
              +:+ "MissingField: id")).
Proof. vm_compute. reflexivity. Qed.


(** Two requests that differ only in the order of receipt of their keyword
    entries are the same [CallArguments], so [Call] cannot tell them apart. *)
Example Parse_forgets_receipt_order :
  ParseCallArguments (mkWire [1; 2] [("b", 5); ("a", 6)])
  = ParseCallArguments (mkWire [1; 2] [("a", 6); ("b", 5)]).
Proof.
  unfold ParseCallArguments. cbn [wire_args wire_kwargs foldl fst snd].
  f_equal.
Qed.


(** C3, the claim as stated, fails: a handler built by a thread that does
    not hold the GIL takes its reference without it. *)
Lemma BuildPyCallHandler_without_gil :
  new_events (BuildPyCallHandler (R := runtime) 7) server_thread
  = [(EvPy_INCREF 7, false)]
  ∧ ¬ runtime_ops_hold_gil
        (new_events (BuildPyCallHandler (R := runtime) 7) server_thread).
Proof.
  assert (Hev : new_events (BuildPyCallHandler (R := runtime) 7) server_thread
                = [(EvPy_INCREF 7, false)]) by reflexivity.
  split; [exact Hev|].
  rewrite Hev. unfold runtime_ops_hold_gil. rewrite Forall_singleton.
  intros H. discriminate (H eq_refl).
Qed.

Lemma PyCallHandler_lifetime_witness :
  runtime_ops_hold_gil
    (new_events (BuildPyCallHandler (R := runtime) 7) python_thread)
  ∧ runtime_ops_hold_gil
      (new_events (handler_dtor (PyCallHandler (R := runtime) 7))
         server_thread).
Proof.
  split.
  - apply (proj2 (proj2 (proj2
      (PyCallHandler_lifetime (R := runtime) 7 python_thread)))).
    reflexivity.
  - apply (PyCallHandler_lifetime (R := runtime) 7 server_thread).
Defined.

Lemma Call_text_unavailable_witness :
  (Call (R := runtime) 2 "fail" (request [1] [("k", 2)]) server_thread).1
  = Error (mkStatus kInternal
             "Python exception was raised on the server but the exception message could not be caught.   ")
  ∧ PythonExceptionErrorCode (Some RuntimeError_type) = kUnknown.
Proof.
  split; [|reflexivity].
  apply (Call_text_unavailable (R := runtime) 2 "fail"
           (request [1] [("k", 2)]) server_thread tt
           [Some 1] [("k", 2)] init (raise RuntimeError_type None init));
    vm_compute; reflexivity.
Defined.

Lemma Call_outcome_witness :
  ∃ st,
    (Call (R := runtime) 1 "fail" (request [1] []) server_thread).1 = Error st
    ∧ code st = kNotFound
    ∧ contains (message st) "KeyError: 'key missing'".
Proof.
  destruct (proj2 (Call_outcome (R := runtime) 1 "fail" (request [1] [])
                     server_thread)
              tt [Some 1] [] init
              (raise KeyError_type (Some "KeyError: 'key missing'") init)
              eq_refl eq_refl eq_refl)
    as (st & Hst & _ & _ & Hcode & _ & Hmsg).
  exists st. split; [exact Hst|]. split; [exact Hcode | exact Hmsg].
Defined.

(** C9, the claim as stated, fails: [Dispatch] is not a method of the class
    the module registers. *)
Lemma Router_class_lacks_Dispatch :
  find_method Router_class "Dispatch" = None
  ∧ ¬ exposes Router_class ["Bind"; "Unbind"; "Dispatch"].
Proof.
  split; [reflexivity|].
  intros H. unfold exposes in H. rewrite !Forall_cons in H.
  destruct H as (_ & _ & [d Hd] & _). discriminate Hd.
Qed.

Lemma Unbind_releases_gil_witness :
  ∃ m,
    py_call_method (R := runtime) Router_class "Unbind" (NameArg "add")
      {["add" := PyCallHandler (R := runtime) 0]} = Some m
    ∧ new_events m python_thread
      = [(EvGilScopedRelease, true); (EvGilScopedAcquire, false);
         (EvPy_DECREF 0, true); (EvGilScopedAcquireEnd, true);
         (EvGilScopedReleaseEnd, false)]
    ∧ gil (m python_thread).2 = true.
Proof.
  destruct (Unbind_releases_gil (R := runtime) "add"
              (PyCallHandler (R := runtime) 0)
              {["add" := PyCallHandler (R := runtime) 0]} python_thread)
    as (_ & _ & _ & m & Hm & _ & Hpy & _).
  exists m. split; [exact Hm|].
  destruct (Hpy 0 eq_refl) as (Hev & _ & Hgil). split; [exact Hev | exact Hgil].
Defined.

(** The scenarios of the specification, on the small runtime. *)
Example scenario_add :
  let add := request [1; 2] [] in
  let bound := (Router_Bind (R := runtime) "add"
                  (PyCallHandler (R := runtime) 0) ∅ python_thread).1 in
  let unbound := (Router_Unbind "add" bound.2 server_thread).1 in
  bound.1 = OkStatus
  ∧ (Router_Dispatch "add" add bound.2 server_thread).1.1
    = Value (mkCallResult 3)
  ∧ unbound.1 = OkStatus
  ∧ (Router_Dispatch "add" add unbound.2 server_thread)
    = ((Error (mkStatus kNotFound "add"), unbound.2), server_thread).
Proof. cbv zeta. repeat split. Qed.

Example scenario_fail :
  let bound := (Router_Bind (R := runtime) "fail"
                  (PyCallHandler (R := runtime) 1) ∅ python_thread).1 in
  (Router_Dispatch "fail" (request [] []) bound.2 server_thread).1.1
  = Error (mkStatus kNotFound
             ("Python exception was raised on the server:" +:+ newline
              +:+ "KeyError: 'key missing'")).
Proof. vm_compute. reflexivity. Qed.

Example scenario_bind_twice :
  let first := (Router_Bind (R := runtime) "add"
                  (PyCallHandler (R := runtime) 0) ∅ python_thread).1 in
  let second := (Router_Bind "add" (PyCallHandler (R := runtime) 1) first.2
                   python_thread).1 in
  code second.1 = kAlreadyExists
  ∧ (Router_Dispatch "add" (request [1; 2] []) second.2 server_thread).1.1
    = Value (mkCallResult 3).
Proof. cbv zeta. split; vm_compute; reflexivity. Qed.

(** ** Logging *)

Section LoggingFacts.
Import Logging.
Context {U : Type}.

Lemma string_app_assoc (s1 s2 s3 : string) :
  (s1 +:+ s2) +:+ s3 = s1 +:+ (s2 +:+ s3).
Proof.
  induction s1 as [|c s1 IH]; [done|].
  change (String c ((s1 +:+ s2) +:+ s3) = String c (s1 +:+ (s2 +:+ s3))).
  by rewrite IH.
Qed.

Lemma CheckOpImpl_decides name v1 v2 exprtext :
  CheckOpImpl name v1 v2 exprtext = None ↔ op_holds name v1 v2.
Proof.
  unfold CheckOpImpl, MakeCheckOpString.
  destruct name; cbn [op_test op_holds].
  - destruct (Z.eqb_spec v1 v2); naive_solver.
  - destruct (Z.eqb_spec v1 v2); cbn [negb]; naive_solver.
  - destruct (Z.leb_spec v1 v2); split; try done; lia.
  - destruct (Z.ltb_spec v1 v2); split; try done; lia.
  - rewrite Z.geb_leb. destruct (Z.leb_spec v2 v1); split; try done; lia.
  - rewrite Z.gtb_ltb. destruct (Z.ltb_spec v2 v1); split; try done; lia.
Qed.

#[local] Instance op_holds_dec name v1 v2 : Decision (op_holds name v1 v2).
Proof. destruct name; cbn [op_holds]; apply _. Defined.

(** A [COURIER_CHECK_xx(val1, val2) << msg] whose comparison holds does
    nothing at all: the streamed operands are not run. One whose comparison
    fails runs them once, leaves [std::clog] alone, adds to [std::cerr] the
    one line [[file:line] Check failed: val1 op val2 (v1 vs. v2)msg] and
    aborts. *)
Theorem COURIER_CHECK_OP_behaviour name val1 val2 text1 text2 file line
    (msg : Streamed) (st : U * Streams) :
  COURIER_CHECK_OP name val1 val2 text1 text2 file line msg st
  = if decide (op_holds name val1 val2) then st
    else ((msg st.1).2,
          mkStreams (clog st.2)
            (cerr st.2
             +:+ ("[" +:+ file +:+ ":" +:+ show_int line
                  +:+ "] Check failed: "
                  +:+ text1 +:+ " " +:+ op_text name +:+ " " +:+ text2
                  +:+ " (" +:+ show_int val1 +:+ " vs. " +:+ show_int val2
                  +:+ ")" +:+ (msg st.1).1)
             +:+ newline)
            true).
Proof.
  unfold COURIER_CHECK_OP.
  pose proof (CheckOpImpl_decides name val1 val2
                (text1 +:+ " " +:+ op_text name +:+ " " +:+ text2)) as Hdec.
  destruct (decide (op_holds name val1 val2)) as [Hyes|Hno].
  - by rewrite (proj2 Hdec Hyes).
  - unfold CheckOpImpl in *.
    destruct (op_test name val1 val2); [by destruct Hno; apply Hdec|].
    unfold MakeCheckOpString, LogMessageFatal_statement. cbv zeta.
    do 3 f_equal. by rewrite !string_app_assoc.
Qed.

(** [COURIER_CHECK(condition) << msg] evaluates the condition once; when it
    holds nothing else happens, and when it does not the operands are run,
    [std::cerr] gets the one line [[file:line] Check failed: condition msg]
    and the program aborts. *)
Theorem COURIER_CHECK_behaviour (condition : U → bool * U) text file line
    (msg : Streamed) (st : U * Streams) :
  COURIER_CHECK condition text file line msg st
  = if (condition st.1).1 then ((condition st.1).2, st.2)
    else ((msg (condition st.1).2).2,
          mkStreams (clog st.2)
            (cerr st.2
             +:+ ("[" +:+ file +:+ ":" +:+ show_int line
                  +:+ "] Check failed: " +:+ text
                  +:+ (msg (condition st.1).2).1)
             +:+ newline)
            true).
Proof.
  unfold COURIER_CHECK. cbv zeta.
  destruct (condition st.1).1; [done|].
  unfold LogMessageFatal_statement. cbv zeta. cbn [fst snd].
  do 3 f_equal. by rewrite !string_app_assoc.
Qed.

Lemma LogMessage_statement_line file line (msg : Streamed)
    (st : U * Streams) :
  LogMessage_statement file line msg st
  = ((msg st.1).2,
     mkStreams
       (clog st.2 +:+ ("[" +:+ file +:+ ":" +:+ show_int line +:+ "] "
                       +:+ (msg st.1).1 +:+ newline))
       (cerr st.2) (aborted st.2)).
Proof.
  unfold LogMessage_statement, write_clog. cbv zeta.
  cbn [clog cerr aborted]. do 2 f_equal. by rewrite !string_app_assoc.
Qed.


(** The three nested loops of the stateful condition end within two tests
    each. They call [ShouldLog] exactly once when the condition is true and
    not at all when it is false, and run the statement once, with [COUNTER]
    the counter [ShouldLog] left, exactly when both are true. *)
Theorem STATEFUL_CONDITION_runs_once fuel ShouldLog condition arg
    (statement : Z → U * Streams → U * Streams) counter st :
  2 ≤ fuel →
  ∃ f,
    STATEFUL_CONDITION fuel ShouldLog condition arg statement counter st
    = Some f
    ∧ counter_ f
      = (if condition then (ShouldLog arg counter).2 else counter)
    ∧ program f
      = (if condition && (ShouldLog arg counter).1
         then statement (ShouldLog arg counter).2 st
         else st).
Proof.
  intros Hfuel. destruct fuel as [|[|fuel]]; [lia | lia |].
  unfold STATEFUL_CONDITION.
  destruct condition; cbn [for_loop fst snd do_log counter_ program
                            clear_do_log andb]; [|by eexists].
  destruct (ShouldLog arg counter) as [[] c'];
    cbn [for_loop fst snd do_log counter_ program clear_do_log andb].
  - destruct (aborted (statement c' st).2) eqn:Ha;
      cbn [fst snd do_log counter_ program clear_do_log]; rewrite ?Ha;
      cbn [fst snd do_log counter_ program clear_do_log]; rewrite ?Ha;
      by eexists.
  - destruct (aborted st.2) eqn:Ha;
      cbn [fst snd do_log counter_ program clear_do_log]; rewrite ?Ha;
      by eexists.
Qed.

End LoggingFacts.

(** ** What [Call] logs, through the logging macros *)

Section CallLoggingFacts.
Context {Payload : Type} {R : PyRuntime Payload}.

Lemma logged_app (e1 e2 : list Event) : logged (e1 ++ e2) = logged e1 ++ logged e2.
Proof. apply omap_app. Qed.

Lemma logged_cons_None (e : Event) evs :
  log_of e = None → logged (e :: evs) = logged evs.
Proof. intros H. unfold logged. simpl. by rewrite H. Qed.

Lemma logged_cons_Some (e : Event) msg evs :
  log_of e = Some msg → logged (e :: evs) = msg :: logged evs.
Proof. intros H. unfold logged. simpl. by rewrite H. Qed.

Lemma logged_loop (evs : list Event) :
  Forall (λ e, loop_event e = true) evs → logged evs = [].
Proof.
  induction 1 as [|e evs He _ IH]; [done|].
  rewrite logged_cons_None; [done|]. by destruct e.
Qed.

Lemma logged_nil : logged ([] : list Event) = [].
Proof. reflexivity. Qed.

Ltac logged_norm :=
  repeat first
    [ rewrite logged_app
    | rewrite logged_nil
    | rewrite logged_cons_None by reflexivity
    | rewrite (logged_cons_Some _ _ _ eq_refl)
    | rewrite app_nil_r
    | rewrite app_nil_l ].

(** A run of [Call] logs nothing, or it logs once, and then the message of
    the status it returns. *)
Lemma Call_logged py_func endpoint arguments w :
  logged (new_events (Call py_func endpoint arguments) w).*1 = []
  ∨ ∃ st exception,
      (Call py_func endpoint arguments w).1 = Error st
      ∧ message st = error_prefix +:+ ":" +:+ newline +:+ exception
      ∧ logged (new_events (Call py_func endpoint arguments) w).*1
        = [message st].
Proof.
  rewrite Call_new_events, Call_unfold.
  destruct (CreateTensorLookup arguments) as [lookup|st0]; [|by left].
  rewrite !fmap_cons, fmap_app, stamp_fst. cbn [fst fmap list_fmap].
  rewrite Call_with_gil_trace. cbv zeta. rewrite Call_with_gil_outcome.
  unfold decode_outcome. cbv zeta.
  destruct (deserialize_args_events lookup (args arguments) 0
              (PyTuple_New (length (args arguments))) (py w)) as (HFa & _).
  destruct (deserialize_kwargs_events lookup (kwargs_iteration arguments)
              PyDict_New
              (state_from (deserialize_args lookup (args arguments) 0
                 (PyTuple_New (length (args arguments)))) (py w)))
    as (HFk & _).
  apply logged_loop in HFa, HFk.
  destruct (result_from (deserialize_args _ _ _ _) (py w)) as [pa|st1];
    [destruct (result_from (deserialize_kwargs _ _ _) _) as [pk|st2];
      [destruct (PyObject_Call py_func pa pk _) as [[obj|] s1];
         cbn [fst snd]; rewrite handle_result_trace;
         [rewrite bool_decide_true by eauto
         |rewrite bool_decide_false by (by intros [? ?]);
          rewrite handle_result_raised;
          destruct (FetchPendingException s1).1 as [exception|]]|]|];
    logged_norm; rewrite ?HFa, ?HFk; logged_norm;
    first [by left | right; eexists _, _; repeat split; reflexivity].
Qed.

(** Whatever [Call] does, its logging never aborts the server and writes
    nothing to [std::cerr]; [std::clog] is left as it was, or gets exactly
    one record: the place of the log statement, the message of the status
    [Call] returns, and a newline. That message is the prefix, a colon, a
    newline and the text of the exception, so the record is two lines or
    more. *)
Theorem Call_log_line file py_func endpoint arguments w io :
  Logging.aborted
    (log_output file (new_events (Call py_func endpoint arguments) w).*1 io)
  = Logging.aborted io
  ∧ Logging.cerr
      (log_output file (new_events (Call py_func endpoint arguments) w).*1 io)
    = Logging.cerr io
  ∧ (Logging.clog
       (log_output file (new_events (Call py_func endpoint arguments) w).*1
          io)
     = Logging.clog io
     ∨ ∃ st exception,
         (Call py_func endpoint arguments w).1 = Error st
         ∧ message st = error_prefix +:+ ":" +:+ newline +:+ exception
         ∧ Logging.clog
             (log_output file
                (new_events (Call py_func endpoint arguments) w).*1 io)
           = Logging.clog io
             +:+ ("[" +:+ file +:+ ":120] " +:+ message st +:+ newline)).
Proof.
  unfold log_output.
  destruct (Call_logged py_func endpoint arguments w)
    as [->|(st & exception & Hst & Hmsg & ->)].
  - cbn [foldl]. auto.
  - cbn [foldl]. unfold Logging.COURIER_ERROR, Logging.COURIER_LOG.
    rewrite LogMessage_statement_line.
    cbn [snd Logging.aborted Logging.cerr Logging.clog fst].
    split; [done|]. split; [done|]. right. exists st, exception.
    split; [done|]. split; [done|]. reflexivity.
Qed.

End CallLoggingFacts.

(** ** The added properties at work *)

Lemma Call_tuple_filled_witness :
  None ∉ ([Some 1; Some 2] : list (option nat)).
Proof.
  pose proof (Call_tuple_filled (R := runtime) tt
                (request [1; 2] [("k", 4)]) init
                [Some 1; Some 2] [("k", 4)] init) as H.
  destruct H as (_ & H & _); [vm_compute; reflexivity | exact H].
Defined.


(** Two keys that differ only after a NUL end up as one entry of the dict. *)
Example kwargs_keys_cut_at_NUL :
  let ax := String (Ascii.ascii_of_nat 97) (String Ascii.zero "x") in
  let ay := String (Ascii.ascii_of_nat 97) (String Ascii.zero "y") in
  ax ≠ ay
  ∧ size (kwargs (request [] [(ax, 1); (ay, 2)])) = 2
  ∧ (∃ v, (decode_outcome (R := runtime) tt
             (request [] [(ax, 1); (ay, 2)]) init).1
          = Value ([], [("a", v)])).
Proof.
  cbv zeta. split; [discriminate|]. split; [vm_compute; reflexivity|].
  eexists. vm_compute. reflexivity.
Qed.

(** A key that is not UTF-8 is left out of the dict, and an exception is
    pending when the callable is invoked. *)
Example kwargs_key_not_utf8 :
  let bad := String (Ascii.ascii_of_nat 255) EmptyString in
  valid_utf8 bad = false
  ∧ decode_outcome (R := runtime) tt (request [1; 2] [(bad, 5); ("a", 6)])
      init
    = (Value ([Some 1; Some 2], [("a", 6)]),
       PyUnicode_FromString_fail bad init)
  ∧ code <$> (match (Call (R := runtime) 0 "add"
                       (request [1; 2] [(bad, 5)]) server_thread).1 with
              | Error st => Some st
              | Value _ => None
              end)
    = Some kInternal.
Proof. cbv zeta. repeat split; vm_compute; reflexivity. Qed.

Example valid_utf8_examples :
  valid_utf8 "endpoint_name" = true
  ∧ valid_utf8 (String (Ascii.ascii_of_nat 195)
                  (String (Ascii.ascii_of_nat 169) EmptyString)) = true
  ∧ valid_utf8 (String (Ascii.ascii_of_nat 192)
                  (String (Ascii.ascii_of_nat 128) EmptyString)) = false
  ∧ valid_utf8 (String (Ascii.ascii_of_nat 237)
                  (String (Ascii.ascii_of_nat 160)
                     (String (Ascii.ascii_of_nat 128) EmptyString))) = false
  ∧ valid_utf8 (String (Ascii.ascii_of_nat 226)
                  (String (Ascii.ascii_of_nat 130) EmptyString)) = false.
Proof. repeat split. Qed.


Lemma Call_same_from_any_thread_witness :
  (Call (R := runtime) 1 "fail" (request [1] []) python_thread).1
  = (Call (R := runtime) 1 "fail" (request [1] []) server_thread).1.
Proof.
  pose proof (Call_same_from_any_thread (R := runtime) 1 "fail"
                (request [1] []) server_thread python_thread) as H.
  destruct H as (H & _); [reflexivity | exact H].
Defined.

Lemma STATEFUL_CONDITION_runs_once_witness :
  ∃ f,
    Logging.COURIER_LOG_EVERY_N 2 Logging.every_nth Logging.COURIER_INFO 3%Z
      "server.cc" 7%Z
      (λ COUNTER (u : unit), ("tick " +:+ pretty COUNTER, u))
      6%Z (tt, Logging.mkStreams "" "" false)
    = Some f
    ∧ Logging.counter_ f = 7%Z
    ∧ Logging.clog (Logging.program f).2
      = "[server.cc:7] tick 7" +:+ newline.
Proof.
  destruct (STATEFUL_CONDITION_runs_once 2 Logging.every_nth true 3%Z
              (λ COUNTER, Logging.COURIER_LOG Logging.COURIER_INFO
                            "server.cc" 7%Z
                            (λ u : unit, ("tick " +:+ pretty COUNTER, u)))
              6%Z (tt, Logging.mkStreams "" "" false))
    as (f & Hf & Hc & Hp); [lia|].
  exists f. split; [exact Hf|]. split; [exact Hc|].
  rewrite Hp. vm_compute. reflexivity.
Defined.

(** One test per loop is not enough: the loops are left only by their
    second test. *)
Example STATEFUL_CONDITION_one_test :
  Logging.COURIER_LOG_EVERY_N 1 Logging.every_nth Logging.COURIER_INFO 3%Z
    "server.cc" 7%Z (λ COUNTER (u : unit), ("tick", u))
    6%Z (tt, Logging.mkStreams "" "" false)
  = None.
Proof. vm_compute. reflexivity. Qed.

Example COURIER_CHECK_EQ_fails :
  Logging.COURIER_CHECK_EQ 3%Z (-4)%Z "size" "limit" "router.cc" 42%Z
    (λ u : unit, (" bad size", u)) (tt, Logging.mkStreams "" "" false)
  = (tt, Logging.mkStreams ""
           ("[router.cc:42] Check failed: size == limit (3 vs. -4) bad size"
            +:+ newline)
           true).
Proof. vm_compute. reflexivity. Qed.
